(** * Spot-termination enrichment (downtime-debugging/spot-termination.py)

    A shallow embedding of the enrichment script and the properties of its
    records.

    - The two boto3 clients and the clock are a [World] of answers. A
      request is answered by its arguments alone, and every request is
      appended to a log carried by a small state and exception monad [Py].
    - A float is an IEEE binary64 value ([spec_float] with [prec = 53] and
      [emax = 1024]), with round-to-nearest-even arithmetic. [x ** 2] and
      [x ** 0.5] are the correctly rounded square and square root, [sum]
      adds from left to right, [round] and [repr] are exact.
    - A datetime is an instant in microseconds since the epoch, a timedelta
      a number of microseconds.
    - A response entry is a record: the keys the script reads with [[...]]
      are plain fields, the keys it reads with [.get] are options. The
      decimal strings under ['SpotPrice'] are held as the floats that
      [float(...)] reads from them. *)

From Stdlib Require Import ZArith List String Ascii Lia Sorted Permutation.
From Stdlib Require Import Floats.SpecFloat.
From stdpp Require Import gmap strings list pretty.

Local Open Scope string_scope.
Local Open Scope list_scope.

(** ** Python floats *)

Module PyFloat.
Local Open Scope Z_scope.

Definition float : Type := spec_float.
Definition prec : Z := 53.
Definition emax : Z := 1024.

Definition add : float -> float -> float := SFadd prec emax.
Definition sub : float -> float -> float := SFsub prec emax.
Definition mul : float -> float -> float := SFmul prec emax.
Definition div : float -> float -> float := SFdiv prec emax.
Definition sqrt : float -> float := SFsqrt prec emax.
(** [x < y] and [x <= y]; both are [False] as soon as one side is NaN. *)
Definition ltb : float -> float -> bool := SFltb.
Definition leb : float -> float -> bool := SFleb.

Definition zero : float := S754_zero false.

Definition is_nan (x : float) : bool :=
  match x with S754_nan => true | _ => false end.

Definition is_finite (x : float) : bool :=
  match x with S754_zero _ | S754_finite _ _ _ => true | _ => false end.

(** The binary64 value nearest to [a / b] (ties to even), for [a, b > 0]. *)
Definition ratio (s : bool) (a b : Z) : float :=
  let '(q, e, l) := SFdiv_core_binary prec emax a 0 b 0 in
  binary_round_aux prec emax s q e l.

(** [a / b] on two ints, [b <> 0]: the correctly rounded quotient. *)
Definition int_truediv (a b : Z) : float :=
  if a =? 0 then zero
  else ratio (xorb (a <? 0) (b <? 0)) (Z.abs a) (Z.abs b).

(** [float(z)] for an int. *)
Definition of_int (z : Z) : float := binary_normalize prec emax z 0 false.

Definition round_half_even (num den : Z) : Z :=
  let q := num / den in
  let r := num mod den in
  match 2 * r ?= den with
  | Lt => q
  | Gt => q + 1
  | Eq => if Z.even q then q else q + 1
  end.

(** [round(x, ndigits)] for [ndigits >= 0]: the exact value of [x] is
    rounded half-even to [ndigits] decimals and the decimal is read back
    as the nearest float; infinities, NaN and zeros round to themselves. *)
Definition round_ndigits (x : float) (ndigits : Z) : float :=
  match x with
  | S754_finite s m e =>
      let k := round_half_even (Zpos m * 10 ^ ndigits * 2 ^ Z.max e 0)
                               (2 ^ Z.max (- e) 0) in
      if k =? 0 then S754_zero s else ratio s k (10 ^ ndigits)
  | _ => x
  end.

(** *** [repr], which is what an f-string field prints for a float *)

Definition lt_pow10 (num den p : Z) : bool :=
  if 0 <=? p then num <? 10 ^ p * den else num * 10 ^ (- p) <? den.

Fixpoint decpt_from (fuel : nat) (num den p : Z) : Z :=
  match fuel with
  | O => p
  | S fuel' =>
      if lt_pow10 num den p then p else decpt_from fuel' num den (p + 1)
  end.

(** The position of the decimal point: [10^(p-1) <= m * 2^e < 10^p]. *)
Definition decimal_point (m : positive) (e : Z) : Z :=
  let bits := Zpos (digits2_pos m) + e in
  decpt_from 8 (Zpos m * 2 ^ Z.max e 0) (2 ^ Z.max (- e) 0)
             ((bits - 1) * 30103 / 100000 - 2).

Definition same_float (x y : float) : bool :=
  match x, y with
  | S754_finite s1 m1 e1, S754_finite s2 m2 e2 =>
      Bool.eqb s1 s2 && (m1 =? m2)%positive && (e1 =? e2)
  | _, _ => false
  end.

Definition of_decimal (c scale : Z) : float :=
  if 0 <=? scale then ratio false (c * 10 ^ scale) 1
  else ratio false c (10 ^ (- scale)).

(** The [n]-digit decimal nearest to [m * 2^e] among those that read back
    as that float, if there is one. *)
Definition digits_at (m : positive) (e : Z) (p n : Z) : option Z :=
  let num := Zpos m * 2 ^ Z.max e 0 in
  let den := 2 ^ Z.max (- e) 0 in
  let scale := p - n in
  let dn := if 0 <=? scale then num else num * 10 ^ (- scale) in
  let dd := if 0 <=? scale then den * 10 ^ scale else den in
  let lo := dn / dd in
  let r := dn mod dd in
  let x := S754_finite false m e in
  match same_float (of_decimal lo scale) x,
        same_float (of_decimal (lo + 1) scale) x with
  | true, true =>
      Some match 2 * r ?= dd with
           | Lt => lo
           | Gt => lo + 1
           | Eq => if Z.even lo then lo else lo + 1
           end
  | true, false => Some lo
  | false, true => Some (lo + 1)
  | false, false => None
  end.

Fixpoint shortest_from (fuel : nat) (m : positive) (e : Z) (p n : Z) : Z * Z :=
  match fuel with
  | O => (Zpos m, n)
  | S fuel' =>
      match digits_at m e p n with
      | Some c => (c, n)
      | None => shortest_from fuel' m e p (n + 1)
      end
  end.

Fixpoint strip_zeros (fuel : nat) (c : Z) : Z :=
  match fuel with
  | O => c
  | S fuel' =>
      if (c mod 10 =? 0) && negb (c =? 0) then strip_zeros fuel' (c / 10)
      else c
  end.

Fixpoint zeros (n : nat) : string :=
  match n with O => "" | S n' => "0" +:+ zeros n' end.

Definition format_digits (ds : string) (decpt : Z) : string :=
  let len := Z.of_nat (String.length ds) in
  if (decpt <=? -4) || (16 <? decpt) then
    let ex := decpt - 1 in
    substring 0 1 ds
      +:+ (if 1 <? len then "." +:+ substring 1 (String.length ds - 1) ds
           else "")
      +:+ "e" +:+ (if ex <? 0 then "-" else "+")
      +:+ (if Z.abs ex <? 10 then "0" else "") +:+ pretty (Z.abs ex)
  else if decpt <=? 0 then "0." +:+ zeros (Z.to_nat (- decpt)) +:+ ds
  else if len <=? decpt then ds +:+ zeros (Z.to_nat (decpt - len)) +:+ ".0"
  else substring 0 (Z.to_nat decpt) ds +:+ "."
         +:+ substring (Z.to_nat decpt) (String.length ds - Z.to_nat decpt) ds.

(** The shortest decimal string that reads back as [x], in Python's
    layout: exponent form below 1e-4 and from 1e16 on, [.0] added to
    integers. *)
Definition repr (x : float) : string :=
  match x with
  | S754_zero s => if s then "-0.0" else "0.0"
  | S754_infinity s => if s then "-inf" else "inf"
  | S754_nan => "nan"
  | S754_finite s m e =>
      let p := decimal_point m e in
      let '(c, n) := shortest_from 17 m e p 1 in
      let ds := pretty (strip_zeros 17 c) in
      let full := Z.of_nat (String.length (pretty c)) in
      (if s then "-" else "") +:+ format_digits ds (p + (full - n))
  end.
End PyFloat.

Abbreviation float := PyFloat.float.

(** ** Exceptions, API calls and the effect monad *)

Inductive exn : Type :=
| ClientError (operation : string)
| KeyError (key : string)
| IndexError
| OverflowError
| TypeError
| ParamValidationError.

Inductive result (A : Type) : Type :=
| Ok (a : A)
| Raise (e : exn).
Arguments Ok {A} a.
Arguments Raise {A} e.

(** One entry per request sent to AWS, in the order they are sent. *)
Inductive ApiCall : Type :=
| GetCallerIdentity
| DescribeSpotInstanceRequests
| DescribeSpotPriceHistory (instance_type : string) (az : option string)
                           (start_time end_time : Z)
| DescribeInstanceTypes (instance_type : string)
| DescribeInstanceTypeOfferings (instance_type : string) (az : option string)
| DescribeAvailabilityZones (region_name : string).

Definition Py (A : Type) : Type := list ApiCall -> result A * list ApiCall.

Definition ret {A} (a : A) : Py A := fun log => (Ok a, log).

Definition bind {A B} (m : Py A) (k : A -> Py B) : Py B :=
  fun log =>
    match m log with
    | (Ok a, log') => k a log'
    | (Raise e, log') => (Raise e, log')
    end.

(** [try: body except Exception: handler] *)
Definition try_except {A} (body : Py A) (handler : Py A) : Py A :=
  fun log =>
    match body log with
    | (Ok a, log') => (Ok a, log')
    | (Raise _, log') => handler log'
    end.

(** A pure computation that may raise. *)
Definition lift {A} (r : result A) : Py A := fun log => (r, log).

(** A request to AWS: it is logged, then answers or raises. *)
Definition call {A} (c : ApiCall) (response : result A) : Py A :=
  fun log => (response, log ++ [c]).

Notation "x <- m ;; k" := (bind m (fun x => k))
  (at level 100, m at next level, right associativity).

(** [for x in xs: acc = body(acc, x)] *)
Fixpoint for_each {A S} (xs : list A) (body : S -> A -> Py S) (acc : S) : Py S :=
  match xs with
  | [] => ret acc
  | x :: xs' => acc' <- body acc x ;; for_each xs' body acc'
  end.

(** [xs[0]] *)
Definition index0 {A} (xs : list A) : result A :=
  match xs with
  | x :: _ => Ok x
  | [] => Raise IndexError
  end.

(** [d[key]] on a key that may be missing. *)
Definition getitem {A} (key : string) (field : option A) : result A :=
  match field with
  | Some a => Ok a
  | None => Raise (KeyError key)
  end.

(** [str(x)] of a value that may be [None]. *)
Definition str_opt (o : option string) : string := default "None" o.

(** [needle in hay] on strings. *)
Fixpoint contains (needle hay : string) : bool :=
  if String.prefix needle hay then true
  else match hay with
       | EmptyString => false
       | String _ rest => contains needle rest
       end.

(** [sorted(xs, key=key)]: stable, by insertion from the right. *)
Fixpoint insert_by {A} (key : A -> Z) (x : A) (xs : list A) : list A :=
  match xs with
  | [] => [x]
  | y :: ys => if (key x <=? key y)%Z then x :: y :: ys
               else y :: insert_by key x ys
  end.

Fixpoint sorted {A} (key : A -> Z) (xs : list A) : list A :=
  match xs with
  | [] => []
  | x :: xs' => insert_by key x (sorted key xs')
  end.

(** ** Datetimes: microseconds since the epoch *)

Definition timedelta_hours (h : Z) : Z := (h * 3600000000)%Z.
Definition timedelta_minutes (m : Z) : Z := (m * 60000000)%Z.

(** [td.total_seconds()] *)
Definition total_seconds (td : Z) : float := PyFloat.int_truediv td 1000000.

(** [t.astimezone(pytz.timezone('Asia/Kolkata'))]: UTC+05:30. *)
Definition local_time (t : Z) : Z := (t + 19800000000)%Z.

Definition weekday_names : list string :=
  ["Monday"; "Tuesday"; "Wednesday"; "Thursday"; "Friday"; "Saturday"; "Sunday"].

(** [t.strftime('%A')]; the epoch fell on a Thursday. *)
Definition strftime_A (t : Z) : string :=
  default "" (weekday_names !! Z.to_nat ((t / 86400000000 + 3) mod 7)%Z).

(** [t.hour] *)
Definition hour (t : Z) : Z := ((t mod 86400000000) / 3600000000)%Z.

(** ** Data returned by AWS *)

(** One entry of [describe_spot_instance_requests]. [req_InstanceType],
    [req_VpcId] and [req_SubnetId] sit under ['LaunchSpecification'];
    [req_StatusCode], [req_StatusMessage] and [req_UpdateTime] under
    ['Status']. Keys read with [.get] are options. [req_SpotPrice] is the
    number that [float(req['SpotPrice'])] reads from the decimal string. *)
Record SpotRequest : Type := {
  req_InstanceId : option string;
  req_SpotInstanceRequestId : string;
  req_InstanceType : string;
  req_LaunchedAvailabilityZone : option string;
  req_SpotPrice : float;
  req_State : string;
  req_StatusCode : string;
  req_StatusMessage : string;
  req_UpdateTime : Z;
  req_CreateTime : Z;
  req_Type : option string;
  req_VpcId : option string;
  req_SubnetId : option string
}.

(** One entry of ['SpotPriceHistory']; [ps_SpotPrice] is [float(p['SpotPrice'])]. *)
Record PriceSample : Type := {
  ps_Timestamp : Z;
  ps_SpotPrice : float
}.

Record NetworkInfo : Type := {
  ni_NetworkPerformance : option string;
  ni_DefaultNetworkCardIndex : option Z
}.

(** One entry of ['InstanceTypes']. *)
Record InstanceTypeInfo : Type := {
  it_NetworkInfo : option NetworkInfo;
  it_SupportedUsageClasses : option (list string)
}.

(** One entry of ['AvailabilityZones']. *)
Record ZoneInfo : Type := {
  az_ZoneName : string;
  az_ZoneId : string
}.

(** What the outside answers: the two boto3 clients and the clock. *)
Record World : Type := {
  sts_get_caller_identity : result string;
  ec2_describe_spot_instance_requests : result (list SpotRequest);
  ec2_describe_spot_price_history :
    string -> option string -> Z -> Z -> result (list PriceSample);
  ec2_describe_instance_types : string -> result (list InstanceTypeInfo);
  ec2_describe_instance_type_offerings :
    string -> option string -> result (list string);
  ec2_describe_availability_zones : string -> result (list ZoneInfo);
  datetime_now : Z
}.

(** The dict built by [enrich_termination_data]. [CreateTime] and
    [TerminationTime] hold the instants whose [isoformat()] the dict stores;
    [Description] is missing until the last assignment. *)
Record Enriched : Type := {
  InstanceId : option string;
  SpotInstanceRequestId : string;
  InstanceType : string;
  AvailabilityZone : option string;
  AvailabilityZoneId : option string;
  SpotPrice : float;
  SpotPriceAtLaunch : float;
  SpotPriceAtTermination : float;
  SpotPriceTrend : float;
  PriceVariance : float;
  CreateTime : Z;
  TerminationTime : Z;
  DayOfWeek : string;
  HourOfDay : Z;
  IsWeekend : bool;
  UptimeMinutes : float;
  IsShortLived : bool;
  UptimeClass : string;
  State : string;
  StatusCode : string;
  StatusMessage : string;
  InstancePopularity : nat;
  NetworkPerformance : option string;
  NetworkCardIndex : option Z;
  CpuCreditsType : string;
  PoolUtilizationClass : string;
  RegionDemandScore : nat;
  AZInterruptionRate : nat;
  SpotRequestType : string;
  VpcId : option string;
  SubnetId : option string;
  AccountId : string;
  Region : string;
  Description : option string
}.

(** [enriched["Description"] = desc] *)
Definition set_Description (d : Enriched) (desc : string) : Enriched :=
  {| InstanceId := InstanceId d;
     SpotInstanceRequestId := SpotInstanceRequestId d;
     InstanceType := InstanceType d;
     AvailabilityZone := AvailabilityZone d;
     AvailabilityZoneId := AvailabilityZoneId d;
     SpotPrice := SpotPrice d;
     SpotPriceAtLaunch := SpotPriceAtLaunch d;
     SpotPriceAtTermination := SpotPriceAtTermination d;
     SpotPriceTrend := SpotPriceTrend d;
     PriceVariance := PriceVariance d;
     CreateTime := CreateTime d;
     TerminationTime := TerminationTime d;
     DayOfWeek := DayOfWeek d;
     HourOfDay := HourOfDay d;
     IsWeekend := IsWeekend d;
     UptimeMinutes := UptimeMinutes d;
     IsShortLived := IsShortLived d;
     UptimeClass := UptimeClass d;
     State := State d;
     StatusCode := StatusCode d;
     StatusMessage := StatusMessage d;
     InstancePopularity := InstancePopularity d;
     NetworkPerformance := NetworkPerformance d;
     NetworkCardIndex := NetworkCardIndex d;
     CpuCreditsType := CpuCreditsType d;
     PoolUtilizationClass := PoolUtilizationClass d;
     RegionDemandScore := RegionDemandScore d;
     AZInterruptionRate := AZInterruptionRate d;
     SpotRequestType := SpotRequestType d;
     VpcId := VpcId d;
     SubnetId := SubnetId d;
     AccountId := AccountId d;
     Region := Region d;
     Description := Some desc |}.

(** ** The script *)

Definition region : string := "ap-south-1".
Definition LOOKBACK_MINUTES : Z := 180.

Definition get_spot_instance_requests (w : World) : Py (list SpotRequest) :=
  call DescribeSpotInstanceRequests (ec2_describe_spot_instance_requests w).

Definition get_spot_price_history (w : World) (instance_type : string)
    (az : option string) (start_time end_time : Z) : Py (list PriceSample) :=
  response <- call (DescribeSpotPriceHistory instance_type az start_time end_time)
                   (ec2_describe_spot_price_history w instance_type az
                                                    start_time end_time) ;;
  ret (sorted ps_Timestamp response).

Definition get_network_performance (w : World) (instance_type : string)
    : Py (option string * option Z) :=
  try_except
    (response <- call (DescribeInstanceTypes instance_type)
                      (ec2_describe_instance_types w instance_type) ;;
     first <- lift (index0 response) ;;
     net_info <- lift (getitem "NetworkInfo" (it_NetworkInfo first)) ;;
     perf <- lift (getitem "NetworkPerformance" (ni_NetworkPerformance net_info)) ;;
     ret (Some perf, ni_DefaultNetworkCardIndex net_info))
    (ret (None, None)).

Definition get_cpu_credit_type (w : World) (instance_type : string) : Py string :=
  try_except
    (response <- call (DescribeInstanceTypes instance_type)
                      (ec2_describe_instance_types w instance_type) ;;
     first <- lift (index0 response) ;;
     lift (index0 (default ["standard"] (it_SupportedUsageClasses first))))
    (ret "unknown").

Definition get_pool_utilization_class (w : World) (instance_type : string)
    (az : option string) : Py string :=
  try_except
    (offerings <- call (DescribeInstanceTypeOfferings instance_type az)
                       (ec2_describe_instance_type_offerings w instance_type az) ;;
     ret (match offerings with [] => "unavailable" | _ :: _ => "available" end))
    (ret "unknown").

Definition generate_description (data : Enriched) : string :=
  "Instance " +:+ str_opt (InstanceId data)
  +:+ " (type " +:+ InstanceType data
  +:+ ") was terminated because there was no available spot capacity in zone "
  +:+ str_opt (AvailabilityZone data) +:+ ". "
  +:+ "It had network performance of '" +:+ str_opt (NetworkPerformance data)
  +:+ "' and used '" +:+ CpuCreditsType data +:+ "' CPU credits. "
  +:+ "The spot price remained stable at "
  +:+ PyFloat.repr (SpotPriceAtLaunch data) +:+ " USD. "
  +:+ "The instance lived for " +:+ PyFloat.repr (UptimeMinutes data)
  +:+ " minutes ('" +:+ UptimeClass data +:+ "' uptime). "
  +:+ "You launched " +:+ pretty (InstancePopularity data)
  +:+ " similar spot instances in the past hour, indicating high demand in your account. "
  +:+ "In the past " +:+ pretty LOOKBACK_MINUTES
  +:+ " minutes, your account had " +:+ pretty (RegionDemandScore data)
  +:+ " spot terminations in region " +:+ Region data
  +:+ ", with " +:+ pretty (AZInterruptionRate data)
  +:+ " in AZ " +:+ str_opt (AvailabilityZone data)
  +:+ ", showing capacity pressure. "
  +:+ "This was a '" +:+ SpotRequestType data
  +:+ "' spot request, meaning AWS did not retry after termination.".

(** The dict comprehension: a later entry of the same name wins. *)
Definition get_az_id_mapping (w : World) : Py (gmap string string) :=
  response <- call (DescribeAvailabilityZones region)
                   (ec2_describe_availability_zones w region) ;;
  ret (fold_left (fun m az => <[az_ZoneName az := az_ZoneId az]> m) response ∅).

(** *** The locals of [enrich_termination_data] *)

(** [prices[0] if prices else spot_price] *)
Definition spot_price_at_launch (prices : list float) (spot_price : float) : float :=
  default spot_price (head prices).

(** [prices[-1] if prices else spot_price] *)
Definition spot_price_at_termination (prices : list float) (spot_price : float)
    : float :=
  default spot_price (last prices).

Definition price_trend (at_termination at_launch : float) : float :=
  PyFloat.sub at_termination at_launch.

(** [x ** 2]: the rounded square; [OverflowError] when a finite [x] has no
    finite square. *)
Definition pow2 (x : float) : result float :=
  let y := PyFloat.mul x x in
  if PyFloat.is_finite x && negb (PyFloat.is_finite y) then Raise OverflowError
  else Ok y.

(** [x ** 0.5]: the rounded square root on the non-negative floats; a
    negative base gives a complex number, which [round] rejects. *)
Definition pow_half (x : float) : result float :=
  match x with
  | S754_nan => Ok S754_nan
  | S754_infinity _ => Ok (S754_infinity false)
  | S754_zero _ => Ok PyFloat.zero
  | S754_finite true _ _ => Raise TypeError
  | S754_finite false _ _ => Ok (PyFloat.sqrt x)
  end.

(** [sum((p - launch)**2 for p in prices)], added left to right from [acc]. *)
Fixpoint sum_squares (launch : float) (prices : list float) (acc : float)
    : result float :=
  match prices with
  | [] => Ok acc
  | p :: ps =>
      match pow2 (PyFloat.sub p launch) with
      | Ok sq => sum_squares launch ps (PyFloat.add acc sq)
      | Raise e => Raise e
      end
  end.

Definition price_variance (prices : list float) (launch : float) : result float :=
  match prices with
  | [] => Ok PyFloat.zero
  | _ :: _ =>
      match sum_squares launch prices (PyFloat.of_int 0) with
      | Ok total =>
          match pow_half (PyFloat.div total
                            (PyFloat.of_int (Z.of_nat (length prices)))) with
          | Ok rms => Ok (PyFloat.round_ndigits rms 6)
          | Raise e => Raise e
          end
      | Raise e => Raise e
      end
  end.

Definition uptime_minutes (create_time termination_time : Z) : float :=
  PyFloat.round_ndigits
    (PyFloat.div (total_seconds (termination_time - create_time))
                 (PyFloat.of_int 60)) 2.

Definition is_short_lived (uptime : float) : bool :=
  PyFloat.ltb uptime (PyFloat.of_int 60).

Definition uptime_class (uptime : float) : string :=
  if PyFloat.ltb uptime (PyFloat.of_int 30) then "VeryShort"
  else if PyFloat.ltb uptime (PyFloat.of_int 120) then "Short"
  else "Long".

(** [sum(1 for req in all_requests if ... and ...)] *)
Definition count_same_type (all_requests : list SpotRequest)
    (instance_type : string) (create_time : Z) : nat :=
  let cutoff_time := (create_time - timedelta_hours 1)%Z in
  sum_list_with (fun _ => 1)
    (filter (fun req => req_InstanceType req = instance_type
                        ∧ (cutoff_time <= req_CreateTime req)%Z)
            all_requests).

Definition enrich_termination_data (w : World) (account_id : string)
    (spot_request : SpotRequest) (all_requests : list SpotRequest)
    (region_demand_score az_demand_score : nat) : Py Enriched :=
  let instance_id := req_InstanceId spot_request in
  let instance_type := req_InstanceType spot_request in
  let az := req_LaunchedAvailabilityZone spot_request in
  az_id_mapping <- get_az_id_mapping w ;;
  let az_id := az ≫= (fun name => az_id_mapping !! name) in
  let spot_price := req_SpotPrice spot_request in
  let create_time := req_CreateTime spot_request in
  let update_time := req_UpdateTime spot_request in
  let request_type := default "unknown" (req_Type spot_request) in
  let termination_time := update_time in
  let local := local_time termination_time in
  let day_of_week := strftime_A local in
  let hour_of_day := hour local in
  let is_weekend := bool_decide (day_of_week ∈ ["Saturday"; "Sunday"]) in
  let price_start := (termination_time - timedelta_hours 6)%Z in
  let price_end := termination_time in
  price_history <- get_spot_price_history w instance_type az
                                          price_start price_end ;;
  let prices := map ps_SpotPrice price_history in
  let at_termination := spot_price_at_termination prices spot_price in
  let at_launch := spot_price_at_launch prices spot_price in
  let trend := price_trend at_termination at_launch in
  variance <- lift (price_variance prices at_launch) ;;
  let uptime := uptime_minutes create_time termination_time in
  let popularity := count_same_type all_requests instance_type create_time in
  network <- get_network_performance w instance_type ;;
  cpu_credit_type <- get_cpu_credit_type w instance_type ;;
  pool_utilization <- get_pool_utilization_class w instance_type az ;;
  let enriched :=
    {| InstanceId := instance_id;
       SpotInstanceRequestId := req_SpotInstanceRequestId spot_request;
       InstanceType := instance_type;
       AvailabilityZone := az;
       AvailabilityZoneId := az_id;
       SpotPrice := spot_price;
       SpotPriceAtLaunch := at_launch;
       SpotPriceAtTermination := at_termination;
       SpotPriceTrend := PyFloat.round_ndigits trend 6;
       PriceVariance := variance;
       CreateTime := create_time;
       TerminationTime := termination_time;
       DayOfWeek := day_of_week;
       HourOfDay := hour_of_day;
       IsWeekend := is_weekend;
       UptimeMinutes := uptime;
       IsShortLived := is_short_lived uptime;
       UptimeClass := uptime_class uptime;
       State := req_State spot_request;
       StatusCode := req_StatusCode spot_request;
       StatusMessage := req_StatusMessage spot_request;
       InstancePopularity := popularity;
       NetworkPerformance := fst network;
       NetworkCardIndex := snd network;
       CpuCreditsType := cpu_credit_type;
       PoolUtilizationClass := pool_utilization;
       RegionDemandScore := region_demand_score;
       AZInterruptionRate := az_demand_score;
       SpotRequestType := request_type;
       VpcId := req_VpcId spot_request;
       SubnetId := req_SubnetId spot_request;
       AccountId := account_id;
       Region := region;
       Description := None |} in
  ret (set_Description enriched (generate_description enriched)).

(** *** The top level of the script *)

Definition recent_terminated (spot_requests : list SpotRequest) (cutoff_time : Z)
    : list SpotRequest :=
  filter (fun req => contains "terminated" (req_StatusCode req) = true
                     ∧ (cutoff_time <= req_UpdateTime req)%Z)
         spot_requests.

Definition az_counter (recent : list SpotRequest) : gmap (option string) nat :=
  fold_left
    (fun counter req =>
       let az := req_LaunchedAvailabilityZone req in
       <[az := default 0 (counter !! az) + 1]> counter)
    recent ∅.

(** [cutoff_time = now - timedelta(minutes=LOOKBACK_MINUTES)] *)
Definition cutoff_time (w : World) : Z :=
  (datetime_now w - timedelta_minutes LOOKBACK_MINUTES)%Z.

(** Everything up to [json.dump]: the list [termination_logs]. *)
Definition main (w : World) : Py (list Enriched) :=
  account_id <- call GetCallerIdentity (sts_get_caller_identity w) ;;
  spot_requests <- get_spot_instance_requests w ;;
  let recent := recent_terminated spot_requests (cutoff_time w) in
  let region_demand_score := length recent in
  let counter := az_counter recent in
  for_each recent
    (fun termination_logs req =>
       let az := req_LaunchedAvailabilityZone req in
       let az_demand_score := default 0 (counter !! az) in
       enriched_data <- enrich_termination_data w account_id req spot_requests
                          region_demand_score az_demand_score ;;
       ret (termination_logs ++ [enriched_data]))
    [].

(** ** Vocabulary of the statements *)

Definition is_az_mapping_fetch (c : ApiCall) : bool :=
  match c with
  | DescribeAvailabilityZones _ => true
  | _ => false
  end.

(** The number of [DescribeAvailabilityZones] requests in a log. *)
Definition az_mapping_fetches (log : list ApiCall) : nat :=
  length (filter (fun c => is_az_mapping_fetch c = true) log).

(** What one successful pass over [xs] does with the log: [f] answers [r]
    for [x] and hands its log to the next element. *)
Inductive loop_run {A B} (f : A -> Py B)
    : list A -> list ApiCall -> list B -> list ApiCall -> Prop :=
| loop_done log : loop_run f [] log [] log
| loop_step x xs log r log1 rs log2 :
    f x log = (Ok r, log1) ->
    loop_run f xs log1 rs log2 ->
    loop_run f (x :: xs) log (r :: rs) log2.

(** The window of the specification, written from its words: same instance
    type, created no earlier than 60 minutes before the target and no later
    than the target. *)
Definition popularity_in_window (batch : list SpotRequest) (target : SpotRequest)
    : nat :=
  length
    (filter (fun e => req_InstanceType e = req_InstanceType target
                      ∧ (req_CreateTime target - timedelta_minutes 60
                         <= req_CreateTime e)%Z
                      ∧ (req_CreateTime e <= req_CreateTime target)%Z)
            batch).

(** The dispersion of the specification, written from its words: the square
    root of the mean of the squared deviations from [launch]. *)
Definition squared_deviations (prices : list float) (launch : float) : list float :=
  map (fun p => PyFloat.mul (PyFloat.sub p launch) (PyFloat.sub p launch)) prices.

Definition mean (xs : list float) : float :=
  PyFloat.div (fold_left PyFloat.add xs PyFloat.zero)
              (PyFloat.of_int (Z.of_nat (length xs))).

Definition rms_deviation (prices : list float) (launch : float) : float :=
  PyFloat.sqrt (mean (squared_deviations prices launch)).

(** Floats that are not below zero (NaN counts: it is not a negative number). *)
Definition nonneg (x : float) : bool :=
  match x with
  | S754_zero s | S754_infinity s | S754_finite s _ _ => negb s
  | S754_nan => true
  end.

(** The optional fields of a record set to the given values. *)
Definition with_optionals (d : Enriched)
    (instance_id az az_id perf : option string) (card : option Z)
    (vpc subnet : option string) : Enriched :=
  {| InstanceId := instance_id;
     SpotInstanceRequestId := SpotInstanceRequestId d;
     InstanceType := InstanceType d;
     AvailabilityZone := az;
     AvailabilityZoneId := az_id;
     SpotPrice := SpotPrice d;
     SpotPriceAtLaunch := SpotPriceAtLaunch d;
     SpotPriceAtTermination := SpotPriceAtTermination d;
     SpotPriceTrend := SpotPriceTrend d;
     PriceVariance := PriceVariance d;
     CreateTime := CreateTime d;
     TerminationTime := TerminationTime d;
     DayOfWeek := DayOfWeek d;
     HourOfDay := HourOfDay d;
     IsWeekend := IsWeekend d;
     UptimeMinutes := UptimeMinutes d;
     IsShortLived := IsShortLived d;
     UptimeClass := UptimeClass d;
     State := State d;
     StatusCode := StatusCode d;
     StatusMessage := StatusMessage d;
     InstancePopularity := InstancePopularity d;
     NetworkPerformance := perf;
     NetworkCardIndex := card;
     CpuCreditsType := CpuCreditsType d;
     PoolUtilizationClass := PoolUtilizationClass d;
     RegionDemandScore := RegionDemandScore d;
     AZInterruptionRate := AZInterruptionRate d;
     SpotRequestType := SpotRequestType d;
     VpcId := vpc;
     SubnetId := subnet;
     AccountId := AccountId d;
     Region := Region d;
     Description := Description d |}.

(** The records of a run, none if it raised. *)
Definition records (out : result (list Enriched) * list ApiCall) : list Enriched :=
  match fst out with
  | Ok recs => recs
  | Raise _ => []
  end.

(** The call that the loop of [main] makes for [req]. *)
Definition enrich_one (w : World) (account_id : string)
    (spot_requests : list SpotRequest) (req : SpotRequest) : Py Enriched :=
  enrich_termination_data w account_id req spot_requests
    (length (recent_terminated spot_requests (cutoff_time w)))
    (default 0 (az_counter (recent_terminated spot_requests (cutoff_time w))
                !! req_LaunchedAvailabilityZone req)).

(** What the script counts: same instance type, created no earlier than 60
    minutes before the target. *)
Definition popularity_from_cutoff (batch : list SpotRequest) (target : SpotRequest)
    : nat :=
  length
    (filter (fun e => req_InstanceType e = req_InstanceType target
                      ∧ (req_CreateTime target - timedelta_minutes 60
                         <= req_CreateTime e)%Z)
            batch).

(** The recent terminations whose zone key is [az]; [None] is a key. *)
Definition in_zone (az : option string) (recent : list SpotRequest) : nat :=
  length (filter (fun req => req_LaunchedAvailabilityZone req = az) recent).

Definition key_le {A} (key : A -> Z) (x y : A) : Prop := (key x <= key y)%Z.

(** [r] carries the sign [s], or is NaN. *)
Definition signed (s : bool) (r : float) : Prop :=
  match r with
  | S754_zero s' | S754_infinity s' | S754_finite s' _ _ => s' = s
  | S754_nan => True
  end.

(** The answer to the price-history request made for [req]. *)
Definition price_response (w : World) (req : SpotRequest)
    : result (list PriceSample) :=
  ec2_describe_spot_price_history w (req_InstanceType req)
    (req_LaunchedAvailabilityZone req)
    (req_UpdateTime req - timedelta_hours 6) (req_UpdateTime req).

(** The price endpoints of [rec] are those of the response for [req]: the
    requested price without samples, else the prices of an earliest and of a
    latest sample; the trend of the record is [round(termination - launch, 6)],
    the float difference rounded to 6 decimals. *)
Definition price_endpoints (w : World) (req : SpotRequest) (rec : Enriched) : Prop :=
  exists response,
    price_response w req = Ok response
    /\ match response with
       | [] => SpotPriceAtLaunch rec = req_SpotPrice req
               /\ SpotPriceAtTermination rec = req_SpotPrice req
       | _ :: _ =>
           exists first last_,
             first ∈ response /\ last_ ∈ response
             /\ SpotPriceAtLaunch rec = ps_SpotPrice first
             /\ SpotPriceAtTermination rec = ps_SpotPrice last_
             /\ forall s, s ∈ response ->
                  (ps_Timestamp first <= ps_Timestamp s <= ps_Timestamp last_)%Z
       end
    /\ SpotPriceTrend rec
       = PyFloat.round_ndigits
           (PyFloat.sub (SpotPriceAtTermination rec) (SpotPriceAtLaunch rec)) 6.


Definition uptime_class_bounds (rec : Enriched) : Prop :=
  let u := UptimeMinutes rec in
  (UptimeClass rec = "VeryShort" <-> PyFloat.ltb u (PyFloat.of_int 30) = true)
  /\ (UptimeClass rec = "Short"
      <-> PyFloat.leb (PyFloat.of_int 30) u = true
          /\ PyFloat.ltb u (PyFloat.of_int 120) = true)
  /\ (UptimeClass rec = "Long" <-> PyFloat.leb (PyFloat.of_int 120) u = true).

Definition short_lived_bound (rec : Enriched) : Prop :=
  let u := UptimeMinutes rec in
  (IsShortLived rec = true <-> PyFloat.ltb u (PyFloat.of_int 60) = true)
  /\ (IsShortLived rec = false <-> PyFloat.leb (PyFloat.of_int 60) u = true).

(** ** Sample inputs *)

Module Sample.

(** A one-time request for an [m5.large] that lost its capacity. *)
Definition request (id : string) (az : option string) (create update : Z)
    : SpotRequest :=
  {| req_InstanceId := Some id;
     req_SpotInstanceRequestId := "sir-" +:+ id;
     req_InstanceType := "m5.large";
     req_LaunchedAvailabilityZone := az;
     req_SpotPrice := PyFloat.int_truediv 45 1000;
     req_State := "closed";
     req_StatusCode := "instance-terminated-no-capacity";
     req_StatusMessage := "There is no Spot capacity available.";
     req_UpdateTime := update;
     req_CreateTime := create;
     req_Type := Some "one-time";
     req_VpcId := None;
     req_SubnetId := None |}.

Definition minutes (m : Z) : Z := timedelta_minutes m.

(** Created at t = 0 and at t = 10 min, both reclaimed at t = 90 min. *)
Definition early : SpotRequest := request "i-0" (Some "ap-south-1a") 0 (minutes 90).
Definition late : SpotRequest :=
  request "i-1" (Some "ap-south-1b") (minutes 10) (minutes 90).

(** Like [late], but the response carries no zone for it. *)
Definition unzoned : SpotRequest := request "i-2" None (minutes 10) (minutes 90).

Definition m5_large : InstanceTypeInfo :=
  {| it_NetworkInfo :=
       Some {| ni_NetworkPerformance := Some "Up to 10 Gigabit";
               ni_DefaultNetworkCardIndex := Some 0%Z |};
     it_SupportedUsageClasses := Some ["on-demand"; "spot"] |}.

Definition zones : list ZoneInfo :=
  [ {| az_ZoneName := "ap-south-1a"; az_ZoneId := "aps1-az1" |};
    {| az_ZoneName := "ap-south-1b"; az_ZoneId := "aps1-az3" |} ].

(** The clock stands at t = 100 min and the instance-type lookups answer;
    the batch, the price history per zone and the zone listing are given. *)
Definition world_of (batch : list SpotRequest)
    (prices : option string -> result (list PriceSample))
    (listing : result (list ZoneInfo)) : World :=
  {| sts_get_caller_identity := Ok "123456789012";
     ec2_describe_spot_instance_requests := Ok batch;
     ec2_describe_spot_price_history := fun _ az _ _ => prices az;
     ec2_describe_instance_types := fun _ => Ok [m5_large];
     ec2_describe_instance_type_offerings := fun _ _ => Ok ["m5.large"];
     ec2_describe_availability_zones := fun _ => listing;
     datetime_now := minutes 100 |}.

(** Every lookup answers; there are no price samples. *)
Definition world : World := world_of [early; late] (fun _ => Ok []) (Ok zones).

(** Two price samples, returned latest first. *)
Definition two_prices : list PriceSample :=
  [ {| ps_Timestamp := minutes 80; ps_SpotPrice := PyFloat.of_int 1 |};
    {| ps_Timestamp := minutes 20; ps_SpotPrice := PyFloat.zero |} ].

Definition priced_world : World :=
  world_of [early; late] (fun _ => Ok two_prices) (Ok zones).

(** The price-history request is refused. *)
Definition no_price_world : World :=
  world_of [early; late]
    (fun _ => Raise (ClientError "DescribeSpotPriceHistory")) (Ok zones).

(** The zone listing is refused. *)
Definition no_zones_world : World :=
  world_of [early; late] (fun _ => Ok [])
    (Raise (ClientError "DescribeAvailabilityZones")).

(** The second request has no zone, and the client rejects a price-history
    request whose zone is [None]. *)
Definition unzoned_world : World :=
  world_of [early; unzoned]
    (fun az => match az with
               | Some _ => Ok []
               | None => Raise ParamValidationError
               end)
    (Ok zones).

End Sample.

(** ** Vocabulary of the further properties *)

(** [needle] occurs in [hay]. *)
Definition occurs_in (needle hay : string) : Prop :=
  exists before after, hay = before +:+ needle +:+ after.

(** The id that a zone listing gives to [name]: that of the last entry
    carrying the name. *)
Definition az_id_of (zones : list ZoneInfo) (name : string) : option string :=
  az_ZoneId <$> last (filter (fun z => az_ZoneName z = name) zones).

(** The requests that enriching [req] sends, in order. *)
Definition event_calls (req : SpotRequest) : list ApiCall :=
  [DescribeAvailabilityZones region;
   DescribeSpotPriceHistory (req_InstanceType req)
     (req_LaunchedAvailabilityZone req)
     (req_UpdateTime req - timedelta_hours 6) (req_UpdateTime req);
   DescribeInstanceTypes (req_InstanceType req);
   DescribeInstanceTypes (req_InstanceType req);
   DescribeInstanceTypeOfferings (req_InstanceType req)
     (req_LaunchedAvailabilityZone req)].

(** The fields of [rec] that are copied from [req]. *)
Definition echoes (req : SpotRequest) (rec : Enriched) : Prop :=
  InstanceId rec = req_InstanceId req
  /\ SpotInstanceRequestId rec = req_SpotInstanceRequestId req
  /\ InstanceType rec = req_InstanceType req
  /\ AvailabilityZone rec = req_LaunchedAvailabilityZone req
  /\ SpotPrice rec = req_SpotPrice req
  /\ CreateTime rec = req_CreateTime req
  /\ TerminationTime rec = req_UpdateTime req
  /\ State rec = req_State req
  /\ StatusCode rec = req_StatusCode req
  /\ StatusMessage rec = req_StatusMessage req
  /\ SpotRequestType rec = default "unknown" (req_Type req)
  /\ VpcId rec = req_VpcId req
  /\ SubnetId rec = req_SubnetId req
  /\ Region rec = region.

(** The calendar fields of [rec] are well formed. *)
Definition calendar_ok (rec : Enriched) : Prop :=
  (0 <= HourOfDay rec < 24)%Z
  /\ DayOfWeek rec ∈ weekday_names
  /\ (IsWeekend rec = true
      <-> DayOfWeek rec = "Saturday" \/ DayOfWeek rec = "Sunday").

(** The sum of the buckets of a counter. *)
Definition bucket_total (counter : gmap (option string) nat) : nat :=
  map_fold (fun _ n total => n + total) 0 counter.

(** The zone id of [rec] is the one the zone listing gives to the zone of
    [req]: none for a request without a zone or with an unlisted zone, else
    the id of a listed entry of that name (the last one). *)
Definition zone_id_resolved (w : World) (req : SpotRequest) (rec : Enriched)
    : Prop :=
  exists zones,
    ec2_describe_availability_zones w region = Ok zones
    /\ AvailabilityZoneId rec = req_LaunchedAvailabilityZone req ≫= az_id_of zones
    /\ (req_LaunchedAvailabilityZone req = None -> AvailabilityZoneId rec = None)
    /\ (forall name,
          req_LaunchedAvailabilityZone req = Some name ->
          (forall z, z ∈ zones -> az_ZoneName z <> name) ->
          AvailabilityZoneId rec = None)
    /\ (forall id,
          AvailabilityZoneId rec = Some id ->
          exists name,
            req_LaunchedAvailabilityZone req = Some name
            /\ {| az_ZoneName := name; az_ZoneId := id |} ∈ zones).

(** In a record the launch price is the price of the first sample of the
    response among those with the least timestamp, the termination price
    that of the last sample of the response among those with the greatest. *)
Definition price_endpoints_in_response_order (w : World) (req : SpotRequest)
    (rec : Enriched) : Prop :=
  exists response,
    price_response w req = Ok response
    /\ (response <> [] ->
        exists first last_,
          head (filter (fun s => ps_Timestamp s = ps_Timestamp first) response)
          = Some first
          /\ last (filter (fun s => ps_Timestamp s = ps_Timestamp last_) response)
             = Some last_
          /\ (forall s, s ∈ response ->
                (ps_Timestamp first <= ps_Timestamp s <= ps_Timestamp last_)%Z)
          /\ SpotPriceAtLaunch rec = ps_SpotPrice first
          /\ SpotPriceAtTermination rec = ps_SpotPrice last_).

(** ** More sample inputs *)

Module MoreSamples.

(** Four samples, two at t = 20 min and two at t = 80 min. *)
Definition tied_prices : list PriceSample :=
  [ {| ps_Timestamp := Sample.minutes 80; ps_SpotPrice := PyFloat.of_int 3 |};
    {| ps_Timestamp := Sample.minutes 20; ps_SpotPrice := PyFloat.of_int 1 |};
    {| ps_Timestamp := Sample.minutes 80; ps_SpotPrice := PyFloat.of_int 4 |};
    {| ps_Timestamp := Sample.minutes 20; ps_SpotPrice := PyFloat.of_int 2 |} ].

Definition tied_world : World :=
  Sample.world_of [Sample.early; Sample.late] (fun _ => Ok tied_prices)
    (Ok Sample.zones).

(** [Sample.priced_world] with its two samples in the other order. *)
Definition reversed_world : World :=
  Sample.world_of [Sample.early; Sample.late]
    (fun _ => Ok (reverse Sample.two_prices)) (Ok Sample.zones).

(** A request that is still open, and one reclaimed four hours before the
    clock of the sample worlds. *)
Definition open_request : SpotRequest :=
  {| req_InstanceId := None;
     req_SpotInstanceRequestId := "sir-open";
     req_InstanceType := "m5.large";
     req_LaunchedAvailabilityZone := None;
     req_SpotPrice := PyFloat.int_truediv 45 1000;
     req_State := "open";
     req_StatusCode := "pending-fulfillment";
     req_StatusMessage := "Your Spot request is pending fulfillment.";
     req_UpdateTime := Sample.minutes 95;
     req_CreateTime := Sample.minutes 95;
     req_Type := None;
     req_VpcId := None;
     req_SubnetId := None |}.

Definition stale : SpotRequest :=
  Sample.request "i-9" (Some "ap-south-1a") (Sample.minutes (-300))
    (Sample.minutes (-140)).

(** Nothing in the listing is a recent termination. *)
Definition quiet_world : World :=
  Sample.world_of [open_request; stale] (fun _ => Ok []) (Ok Sample.zones).

(** The caller identity is refused. *)
Definition anonymous_world : World :=
  {| sts_get_caller_identity := Raise (ClientError "GetCallerIdentity");
     ec2_describe_spot_instance_requests := Ok [Sample.early; Sample.late];
     ec2_describe_spot_price_history := fun _ _ _ _ => Ok [];
     ec2_describe_instance_types := fun _ => Ok [Sample.m5_large];
     ec2_describe_instance_type_offerings := fun _ _ => Ok ["m5.large"];
     ec2_describe_availability_zones := fun _ => Ok Sample.zones;
     datetime_now := Sample.minutes 100 |}.

(** The listing of the spot requests is refused. *)
Definition unlisted_world : World :=
  {| sts_get_caller_identity := Ok "123456789012";
     ec2_describe_spot_instance_requests :=
       Raise (ClientError "DescribeSpotInstanceRequests");
     ec2_describe_spot_price_history := fun _ _ _ _ => Ok [];
     ec2_describe_instance_types := fun _ => Ok [Sample.m5_large];
     ec2_describe_instance_type_offerings := fun _ _ => Ok ["m5.large"];
     ec2_describe_availability_zones := fun _ => Ok Sample.zones;
     datetime_now := Sample.minutes 100 |}.

(** The price went from 0.1 at t = 20 min to 0.3 at t = 80 min. *)
Definition drifting_prices : list PriceSample :=
  [ {| ps_Timestamp := Sample.minutes 20; ps_SpotPrice := PyFloat.int_truediv 1 10 |};
    {| ps_Timestamp := Sample.minutes 80; ps_SpotPrice := PyFloat.int_truediv 3 10 |} ].

Definition drifting_world : World :=
  Sample.world_of [Sample.early; Sample.late] (fun _ => Ok drifting_prices)
    (Ok Sample.zones).

(** A reclaimed request whose response carries no instance id. *)
Definition nameless : SpotRequest :=
  {| req_InstanceId := None;
     req_SpotInstanceRequestId := "sir-nameless";
     req_InstanceType := "m5.large";
     req_LaunchedAvailabilityZone := Some "ap-south-1a";
     req_SpotPrice := PyFloat.int_truediv 45 1000;
     req_State := "closed";
     req_StatusCode := "instance-terminated-no-capacity";
     req_StatusMessage := "There is no Spot capacity available.";
     req_UpdateTime := Sample.minutes 90;
     req_CreateTime := 0;
     req_Type := Some "one-time";
     req_VpcId := None;
     req_SubnetId := None |}.

(** The instance-type lookups are refused, the other requests answer. *)
Definition refused_types_world : World :=
  {| sts_get_caller_identity := Ok "123456789012";
     ec2_describe_spot_instance_requests := Ok [nameless];
     ec2_describe_spot_price_history := fun _ _ _ _ => Ok [];
     ec2_describe_instance_types :=
       fun _ => Raise (ClientError "DescribeInstanceTypes");
     ec2_describe_instance_type_offerings := fun _ _ => Ok ["m5.large"];
     ec2_describe_availability_zones := fun _ => Ok Sample.zones;
     datetime_now := Sample.minutes 100 |}.

End MoreSamples.

(** What [main] returns without entering the loop. *)
Definition outcome_before_loop (w : World) : Prop :=
  match sts_get_caller_identity w with
  | Raise e => main w [] = (Raise e, [GetCallerIdentity])
  | Ok _ =>
      match ec2_describe_spot_instance_requests w with
      | Raise e =>
          main w [] = (Raise e, [GetCallerIdentity; DescribeSpotInstanceRequests])
      | Ok spot_requests =>
          match recent_terminated spot_requests (cutoff_time w) with
          | [] =>
              main w [] = (Ok [], [GetCallerIdentity; DescribeSpotInstanceRequests])
          | _ :: _ => True
          end
      end
  end.

(** Everything that enriching [req] needs from the world. *)
Definition enrichable (w : World) (req : SpotRequest) : Prop :=
  exists zones response variance,
    ec2_describe_availability_zones w region = Ok zones
    /\ price_response w req = Ok response
    /\ price_variance (map ps_SpotPrice (sorted ps_Timestamp response))
         (spot_price_at_launch
            (map ps_SpotPrice (sorted ps_Timestamp response))
            (req_SpotPrice req)) = Ok variance.

(** The square of the deviation of [p] from [launch] leaves the floats. *)
Definition square_overflows (launch p : float) : Prop :=
  PyFloat.is_finite (PyFloat.sub p launch) = true
  /\ PyFloat.is_finite
       (PyFloat.mul (PyFloat.sub p launch) (PyFloat.sub p launch)) = false.

(** With at most one price sample and a finite launch price, the two price
    endpoints coincide and both the trend and the dispersion are 0.0. *)
Definition flat_on_few_samples (w : World) (req : SpotRequest) (rec : Enriched)
    : Prop :=
  forall response,
    price_response w req = Ok response ->
    length response <= 1 ->
    PyFloat.is_finite (SpotPriceAtLaunch rec) = true ->
    SpotPriceAtTermination rec = SpotPriceAtLaunch rec
    /\ SpotPriceTrend rec = PyFloat.zero
    /\ PriceVariance rec = PyFloat.zero.

(** * Proofs *)

(** ** The monad *)

Lemma bind_Ok_inv {A B} (m : Py A) (k : A -> Py B) log b log' :
  bind m k log = (Ok b, log') ->
  exists a log1, m log = (Ok a, log1) /\ k a log1 = (Ok b, log').
Proof.
  unfold bind. destruct (m log) as [[a | e] log1]; intros H.
  - exists a, log1. split; [reflexivity | exact H].
  - discriminate H.
Qed.

(** A guarded lookup sends its request and never raises. *)
Lemma try_except_total {A} (body : Py A) (dflt : A) log :
  exists a, try_except body (ret dflt) log = (Ok a, snd (body log)).
Proof.
  unfold try_except, ret. destruct (body log) as [[a | e] log1]; simpl; eauto.
Qed.

Lemma call_bind_log {A B} c (r : result A) (k : A -> Py B) log :
  (forall a l, snd (k a l) = l) ->
  snd (bind (call c r) k log) = log ++ [c].
Proof.
  intros Hk. unfold bind, call. destruct r as [a | e]; simpl; [apply Hk | reflexivity].
Qed.

Lemma lift_bind_log {A B} (r : result A) (k : A -> Py B) log :
  (forall a l, snd (k a l) = l) -> snd (bind (lift r) k log) = log.
Proof.
  intros Hk. unfold bind, lift. destruct r as [a | e]; simpl; [apply Hk | reflexivity].
Qed.

Lemma get_network_performance_total w instance_type log :
  exists network,
    get_network_performance w instance_type log
    = (Ok network, log ++ [DescribeInstanceTypes instance_type]).
Proof.
  unfold get_network_performance.
  match goal with |- context [try_except ?b (ret ?d)] =>
    destruct (try_except_total b d log) as [a Ha]; exists a; rewrite Ha end.
  f_equal. apply call_bind_log. intros first l.
  repeat (apply lift_bind_log; intros). reflexivity.
Qed.

Lemma get_cpu_credit_type_total w instance_type log :
  exists credit,
    get_cpu_credit_type w instance_type log
    = (Ok credit, log ++ [DescribeInstanceTypes instance_type]).
Proof.
  unfold get_cpu_credit_type.
  match goal with |- context [try_except ?b (ret ?d)] =>
    destruct (try_except_total b d log) as [a Ha]; exists a; rewrite Ha end.
  f_equal. apply call_bind_log. intros first l.
  apply lift_bind_log. intros usage l2. reflexivity.
Qed.

Lemma get_pool_utilization_class_total w instance_type az log :
  exists pool,
    get_pool_utilization_class w instance_type az log
    = (Ok pool, log ++ [DescribeInstanceTypeOfferings instance_type az]).
Proof.
  unfold get_pool_utilization_class.
  match goal with |- context [try_except ?b (ret ?d)] =>
    destruct (try_except_total b d log) as [a Ha]; exists a; rewrite Ha end.
  f_equal. apply call_bind_log. intros. reflexivity.
Qed.

(** ** One event *)

(** What a record that came out of [enrich_termination_data] is made of. *)
Lemma enrich_Ok_inv w account req all rds ads log rec log' :
  enrich_termination_data w account req all rds ads log = (Ok rec, log') ->
  exists zones response,
    ec2_describe_availability_zones w region = Ok zones
    /\ ec2_describe_spot_price_history w (req_InstanceType req)
         (req_LaunchedAvailabilityZone req)
         (req_UpdateTime req - timedelta_hours 6) (req_UpdateTime req)
       = Ok response
    /\ price_variance (map ps_SpotPrice (sorted ps_Timestamp response))
         (SpotPriceAtLaunch rec) = Ok (PriceVariance rec)
    /\ SpotPriceAtLaunch rec
       = spot_price_at_launch (map ps_SpotPrice (sorted ps_Timestamp response))
           (req_SpotPrice req)
    /\ SpotPriceAtTermination rec
       = spot_price_at_termination
           (map ps_SpotPrice (sorted ps_Timestamp response)) (req_SpotPrice req)
    /\ SpotPriceTrend rec
       = PyFloat.round_ndigits
           (price_trend (SpotPriceAtTermination rec) (SpotPriceAtLaunch rec)) 6
    /\ UptimeMinutes rec = uptime_minutes (req_CreateTime req) (req_UpdateTime req)
    /\ IsShortLived rec = is_short_lived (UptimeMinutes rec)
    /\ UptimeClass rec = uptime_class (UptimeMinutes rec)
    /\ InstancePopularity rec
       = count_same_type all (req_InstanceType req) (req_CreateTime req)
    /\ AvailabilityZone rec = req_LaunchedAvailabilityZone req
    /\ RegionDemandScore rec = rds
    /\ AZInterruptionRate rec = ads
    /\ (exists d, rec = set_Description d (generate_description d))
    /\ log' = log ++ [DescribeAvailabilityZones region;
                      DescribeSpotPriceHistory (req_InstanceType req)
                        (req_LaunchedAvailabilityZone req)
                        (req_UpdateTime req - timedelta_hours 6)
                        (req_UpdateTime req);
                      DescribeInstanceTypes (req_InstanceType req);
                      DescribeInstanceTypes (req_InstanceType req);
                      DescribeInstanceTypeOfferings (req_InstanceType req)
                        (req_LaunchedAvailabilityZone req)].
Proof.
  unfold enrich_termination_data, get_az_id_mapping, get_spot_price_history.
  intros H.
  apply bind_Ok_inv in H as (mapping & l1 & H1 & H).
  apply bind_Ok_inv in H1 as (zones & l1' & Hz & H1).
  apply bind_Ok_inv in H as (history & l2 & H2 & H).
  apply bind_Ok_inv in H2 as (response & l2' & Hr & H2).
  apply bind_Ok_inv in H as (variance & l3 & H3 & H).
  apply bind_Ok_inv in H as (network & l4 & H4 & H).
  apply bind_Ok_inv in H as (credit & l5 & H5 & H).
  apply bind_Ok_inv in H as (pool & l6 & H6 & H).
  unfold call in Hz, Hr. unfold ret in H1, H2, H. unfold lift in H3.
  destruct (get_network_performance_total w (req_InstanceType req) l3) as [n Hn].
  destruct (get_cpu_credit_type_total w (req_InstanceType req) l4) as [c Hc].
  destruct (get_pool_utilization_class_total w (req_InstanceType req)
              (req_LaunchedAvailabilityZone req) l5) as [p Hp].
  rewrite Hn in H4. rewrite Hc in H5. rewrite Hp in H6.
  simplify_eq.
  exists zones, response. simpl.
  repeat split; try assumption; try reflexivity.
  - eexists. reflexivity.
  - rewrite <- !app_assoc. reflexivity.
Qed.

Lemma enrich_Raise_zones w account req all rds ads log e :
  ec2_describe_availability_zones w region = Raise e ->
  enrich_termination_data w account req all rds ads log
  = (Raise e, log ++ [DescribeAvailabilityZones region]).
Proof.
  intros Hz. unfold enrich_termination_data, get_az_id_mapping, bind, call.
  rewrite Hz. reflexivity.
Qed.

Lemma enrich_Raise_prices w account req all rds ads log zones e :
  ec2_describe_availability_zones w region = Ok zones ->
  ec2_describe_spot_price_history w (req_InstanceType req)
    (req_LaunchedAvailabilityZone req)
    (req_UpdateTime req - timedelta_hours 6) (req_UpdateTime req) = Raise e ->
  exists log',
    enrich_termination_data w account req all rds ads log = (Raise e, log').
Proof.
  intros Hz Hr.
  unfold enrich_termination_data, get_az_id_mapping, get_spot_price_history,
    bind, call, ret.
  rewrite Hz, Hr. eexists. reflexivity.
Qed.

(** The narrative step cannot fail: once the two unguarded requests have
    answered and no square overflowed, the record comes out. *)
Lemma enrich_Ok_intro w account req all rds ads log zones response variance :
  ec2_describe_availability_zones w region = Ok zones ->
  ec2_describe_spot_price_history w (req_InstanceType req)
    (req_LaunchedAvailabilityZone req)
    (req_UpdateTime req - timedelta_hours 6) (req_UpdateTime req) = Ok response ->
  price_variance (map ps_SpotPrice (sorted ps_Timestamp response))
    (spot_price_at_launch (map ps_SpotPrice (sorted ps_Timestamp response))
       (req_SpotPrice req)) = Ok variance ->
  exists rec log',
    enrich_termination_data w account req all rds ads log = (Ok rec, log').
Proof.
  intros Hz Hr Hv.
  unfold enrich_termination_data, get_az_id_mapping, get_spot_price_history.
  unfold bind at 1. unfold bind at 1. unfold call at 1. rewrite Hz. unfold ret at 1.
  unfold bind at 1. unfold bind at 1. unfold call at 1. rewrite Hr. unfold ret at 1.
  unfold bind at 1. unfold lift at 1. rewrite Hv.
  unfold bind at 1.
  match goal with |- context [get_network_performance w ?i ?l] =>
    destruct (get_network_performance_total w i l) as [n ->] end.
  unfold bind at 1.
  match goal with |- context [get_cpu_credit_type w ?i ?l] =>
    destruct (get_cpu_credit_type_total w i l) as [c ->] end.
  unfold bind at 1.
  match goal with |- context [get_pool_utilization_class w ?i ?a ?l] =>
    destruct (get_pool_utilization_class_total w i a l) as [p ->] end.
  unfold ret. eexists _, _. reflexivity.
Qed.

(** ** The loop *)

Lemma for_each_append_inv {A B} (f : A -> Py B) xs acc log out log' :
  for_each xs (fun logs x => r <- f x ;; ret (logs ++ [r])) acc log
  = (Ok out, log') ->
  exists rs, out = acc ++ rs /\ loop_run f xs log rs log'.
Proof.
  revert acc log. induction xs as [| x xs IH]; intros acc log H; simpl in H.
  - unfold ret in H. simplify_eq. exists []. split.
    + symmetry. apply app_nil_r.
    + constructor.
  - apply bind_Ok_inv in H as (acc' & log1 & Hx & H).
    apply bind_Ok_inv in Hx as (r & log1' & Hr & Hret).
    unfold ret in Hret. simplify_eq.
    apply IH in H as (rs & -> & Hrun).
    exists (r :: rs). split.
    + rewrite <- app_assoc. reflexivity.
    + econstructor; eassumption.
Qed.

Lemma for_each_append_Raise {A B} (f : A -> Py B) xs x acc log :
  x ∈ xs ->
  (forall l, exists e l', f x l = (Raise e, l')) ->
  exists e log',
    for_each xs (fun logs x => r <- f x ;; ret (logs ++ [r])) acc log
    = (Raise e, log').
Proof.
  intros Hin Hx. revert acc log.
  induction xs as [| y ys IH]; intros acc log.
  - inversion Hin.
  - simpl. unfold bind at 1 2.
    destruct (f y log) as [[r | e] log1] eqn:Hy.
    + unfold ret at 1.
      apply elem_of_cons in Hin as [-> | Hin].
      * destruct (Hx log) as (e & l' & He). congruence.
      * apply IH. exact Hin.
    + eauto.
Qed.

Lemma for_each_append_Ok {A B} (f : A -> Py B) xs acc log :
  (forall x l, x ∈ xs -> exists r l', f x l = (Ok r, l')) ->
  exists out log',
    for_each xs (fun logs x => r <- f x ;; ret (logs ++ [r])) acc log
    = (Ok out, log').
Proof.
  revert acc log. induction xs as [| x xs IH]; intros acc log Hf; simpl.
  - unfold ret. eauto.
  - destruct (Hf x log) as (r & l' & Hr); [left |].
    unfold bind at 1 2. rewrite Hr. unfold ret at 1.
    apply IH. intros y l Hy. apply Hf. right. exact Hy.
Qed.

Lemma loop_run_length {A B} (f : A -> Py B) xs log rs log' :
  loop_run f xs log rs log' -> length rs = length xs.
Proof. induction 1; simpl; congruence. Qed.

(** ** The whole run *)

Lemma main_Ok_inv w recs log :
  main w [] = (Ok recs, log) ->
  exists account_id spot_requests,
    sts_get_caller_identity w = Ok account_id
    /\ ec2_describe_spot_instance_requests w = Ok spot_requests
    /\ loop_run (enrich_one w account_id spot_requests)
         (recent_terminated spot_requests (cutoff_time w))
         [GetCallerIdentity; DescribeSpotInstanceRequests] recs log.
Proof.
  unfold main, get_spot_instance_requests. intros H.
  apply bind_Ok_inv in H as (account_id & l1 & Ha & H).
  apply bind_Ok_inv in H as (spot_requests & l2 & Hs & H).
  unfold call in Ha, Hs. simplify_eq.
  apply for_each_append_inv in H as (rs & -> & Hrun).
  exists account_id, spot_requests. repeat split; assumption.
Qed.

(** The run succeeds as soon as the unguarded requests answer and no
    squared deviation overflows; nothing else in an event can stop it. *)
Lemma main_Ok_intro w account_id spot_requests zones :
  sts_get_caller_identity w = Ok account_id ->
  ec2_describe_spot_instance_requests w = Ok spot_requests ->
  ec2_describe_availability_zones w region = Ok zones ->
  (forall req,
     req ∈ recent_terminated spot_requests (cutoff_time w) ->
     exists response variance,
       price_response w req = Ok response
       /\ price_variance (map ps_SpotPrice (sorted ps_Timestamp response))
            (spot_price_at_launch
               (map ps_SpotPrice (sorted ps_Timestamp response))
               (req_SpotPrice req)) = Ok variance) ->
  exists recs log, main w [] = (Ok recs, log).
Proof.
  intros Ha Hs Hz Hprices. unfold main, get_spot_instance_requests.
  unfold bind at 1. unfold call at 1. rewrite Ha.
  unfold bind at 1. unfold call at 1. rewrite Hs.
  apply (for_each_append_Ok (enrich_one w account_id spot_requests)).
  intros req l Hin. destruct (Hprices req Hin) as (response & variance & Hr & Hv).
  unfold enrich_one. eapply enrich_Ok_intro; eassumption.
Qed.

(** ** The zone counter *)

Lemma az_counter_fold (recent : list SpotRequest)
    (counter : gmap (option string) nat) az :
  default 0
    (fold_left
       (fun counter req =>
          let az := req_LaunchedAvailabilityZone req in
          <[az := default 0 (counter !! az) + 1]> counter)
       recent counter !! az)
  = default 0 (counter !! az) + in_zone az recent.
Proof.
  revert counter. induction recent as [| req recent IH]; intros counter.
  - simpl. unfold in_zone. simpl. lia.
  - simpl. rewrite IH. unfold in_zone. rewrite filter_cons.
    destruct (decide (req_LaunchedAvailabilityZone req = az)) as [-> | Hne].
    + rewrite lookup_insert_eq. simpl. lia.
    + rewrite lookup_insert_ne by exact Hne. reflexivity.
Qed.

Lemma az_counter_lookup recent az :
  default 0 (az_counter recent !! az) = in_zone az recent.
Proof. unfold az_counter. rewrite az_counter_fold, lookup_empty. reflexivity. Qed.

Lemma az_counter_fold_positive (recent : list SpotRequest)
    (counter : gmap (option string) nat) az n :
  fold_left
    (fun counter req =>
       let az := req_LaunchedAvailabilityZone req in
       <[az := default 0 (counter !! az) + 1]> counter)
    recent counter !! az = Some n ->
  counter !! az = Some n \/ 1 <= n.
Proof.
  revert counter. induction recent as [| req recent IH]; intros counter H.
  - left. exact H.
  - simpl in H. apply IH in H as [H | H]; [| right; exact H].
    destruct (decide (req_LaunchedAvailabilityZone req = az)) as [Heq | Hne].
    + rewrite Heq, lookup_insert_eq in H. right. simplify_eq. lia.
    + rewrite lookup_insert_ne in H by exact Hne. left. exact H.
Qed.

Lemma in_zone_le recent az : in_zone az recent <= length recent.
Proof. apply length_filter. Qed.

Lemma in_zone_member recent req :
  req ∈ recent -> 1 <= in_zone (req_LaunchedAvailabilityZone req) recent.
Proof.
  intros Hin. unfold in_zone.
  assert (H : req ∈ filter (fun r => req_LaunchedAvailabilityZone r
                                     = req_LaunchedAvailabilityZone req) recent).
  { apply list_elem_of_filter. split; [reflexivity | exact Hin]. }
  destruct (filter _ recent); [inversion H | simpl; lia].
Qed.

(** ** [sorted] *)

Section Sorted.
Context {A : Type} (key : A -> Z).

Lemma insert_by_Permutation x xs : Permutation (x :: xs) (insert_by key x xs).
Proof.
  induction xs as [| y ys IH]; simpl; [reflexivity |].
  destruct (key x <=? key y)%Z; [reflexivity |].
  rewrite perm_swap. constructor. exact IH.
Qed.

Lemma sorted_Permutation xs : Permutation xs (sorted key xs).
Proof.
  induction xs as [| x xs IH]; simpl; [constructor |].
  rewrite <- insert_by_Permutation. constructor. exact IH.
Qed.

Lemma insert_by_HdRel a x xs :
  key_le key a x -> HdRel (key_le key) a xs ->
  HdRel (key_le key) a (insert_by key x xs).
Proof.
  intros Hax Hxs. destruct xs as [| y ys]; simpl.
  - constructor. exact Hax.
  - destruct (key x <=? key y)%Z; constructor; [exact Hax |].
    inversion Hxs; assumption.
Qed.

Lemma insert_by_Sorted x xs :
  Sorted (key_le key) xs -> Sorted (key_le key) (insert_by key x xs).
Proof.
  induction 1 as [| y ys Hs IH Hhd]; simpl.
  - repeat constructor.
  - destruct (Z.leb_spec (key x) (key y)) as [Hle | Hgt].
    + constructor; [constructor; assumption | constructor; exact Hle].
    + constructor; [exact IH |].
      apply insert_by_HdRel; [unfold key_le; lia | exact Hhd].
Qed.

Lemma sorted_Sorted xs : Sorted (key_le key) (sorted key xs).
Proof.
  induction xs as [| x xs IH]; simpl; [constructor |].
  apply insert_by_Sorted. exact IH.
Qed.

Lemma key_le_trans : Relations_1.Transitive (key_le key).
Proof. intros x y z. unfold key_le. lia. Qed.

Lemma Sorted_head_least x xs y :
  Sorted (key_le key) (x :: xs) -> y ∈ x :: xs -> key_le key x y.
Proof.
  intros Hs Hin. apply Sorted_StronglySorted in Hs; [| exact key_le_trans].
  inversion Hs as [| ? ? _ Hall]; subst.
  apply elem_of_cons in Hin as [-> | Hin].
  - unfold key_le. lia.
  - rewrite Forall_forall in Hall. apply Hall. exact Hin.
Qed.

Lemma Sorted_last_greatest xs z y :
  Sorted (key_le key) xs -> last xs = Some z -> y ∈ xs -> key_le key y z.
Proof.
  intros Hs. apply Sorted_StronglySorted in Hs; [| exact key_le_trans].
  induction Hs as [| x xs Hs IH Hall]; intros Hlast Hin.
  - inversion Hin.
  - destruct xs as [| x' xs'].
    + simpl in Hlast. simplify_eq. apply list_elem_of_singleton in Hin as ->.
      unfold key_le. lia.
    + change (last (x :: x' :: xs')) with (last (x' :: xs')) in Hlast.
      apply elem_of_cons in Hin as [-> | Hin].
      * rewrite Forall_forall in Hall. apply Hall.
        eapply last_Some_elem_of. exact Hlast.
      * apply IH; assumption.
Qed.

Lemma insert_by_comm x y l :
  key x <> key y ->
  insert_by key x (insert_by key y l) = insert_by key y (insert_by key x l).
Proof.
  intros Hne. induction l as [| z l IH]; simpl;
    repeat (match goal with
            | |- context [(?a <=? ?b)%Z] => destruct (Z.leb_spec a b)
            end; simpl);
    try lia; try reflexivity.
  f_equal. exact IH.
Qed.

(** With distinct keys the result does not depend on the order of the input. *)
Lemma sorted_order_irrelevant l1 l2 :
  Permutation l1 l2 -> NoDup (map key l1) -> sorted key l1 = sorted key l2.
Proof.
  induction 1 as [| x l1 l2 Hp IH | x y l | l1 l2 l3 Hp1 IH1 Hp2 IH2];
    intros Hnd; simpl.
  - reflexivity.
  - simpl in Hnd. apply NoDup_cons in Hnd as [_ Hnd]. rewrite IH by exact Hnd.
    reflexivity.
  - simpl in Hnd. apply NoDup_cons in Hnd as [Hy _].
    apply insert_by_comm. intros Heq. apply Hy. rewrite Heq. left.
  - rewrite IH1 by exact Hnd. apply IH2.
    assert (Hm : map key l1 ≡ₚ map key l2) by (apply Permutation_map; exact Hp1).
    rewrite <- Hm. exact Hnd.
Qed.
End Sorted.

(** ** Floats: what rounding can return *)

Module FloatFacts.
Import PyFloat.
Local Open Scope Z_scope.

Lemma binary_round_aux_signed s m e l :
  signed s (binary_round_aux prec emax s m e l).
Proof.
  unfold binary_round_aux.
  destruct (shr_fexp prec emax m e l) as [mrs' e'].
  destruct (shr_fexp prec emax _ e' loc_Exact) as [mrs'' e''].
  destruct (shr_m mrs''); simpl; trivial.
  destruct (e'' <=? emax - prec); simpl; trivial.
Qed.

Lemma shr_1_nonneg mrs : 0 <= shr_m mrs -> 0 <= shr_m (shr_1 mrs).
Proof.
  destruct mrs as [m r s]. simpl. intros Hm.
  destruct m as [| p | p]; [simpl; lia | | lia].
  destruct p; simpl; lia.
Qed.

Lemma iter_shr_1_nonneg p mrs :
  0 <= shr_m mrs -> 0 <= shr_m (SpecFloat.iter_pos shr_1 p mrs).
Proof.
  revert mrs. induction p as [p IH | p IH |]; intros mrs Hm; simpl.
  - apply IH, IH, shr_1_nonneg, Hm.
  - apply IH, IH, Hm.
  - apply shr_1_nonneg, Hm.
Qed.

Lemma shr_fexp_nonneg m e l :
  0 <= m -> 0 <= shr_m (fst (shr_fexp prec emax m e l)).
Proof.
  intros Hm. unfold shr_fexp, shr.
  assert (H0 : 0 <= shr_m (shr_record_of_loc m l)).
  { destruct l as [| []]; simpl; exact Hm. }
  destruct (fexp prec emax (Zdigits2 m + e) - e); simpl; try exact H0.
  apply iter_shr_1_nonneg, H0.
Qed.

Lemma round_nearest_even_nonneg m l : 0 <= m -> 0 <= round_nearest_even m l.
Proof.
  intros Hm. destruct l as [| []]; simpl; try lia.
  destruct (Z.even m); lia.
Qed.

(** Rounding a non-negative mantissa never produces NaN. *)
Lemma binary_round_aux_not_nan s m e l :
  0 <= m -> is_nan (binary_round_aux prec emax s m e l) = false.
Proof.
  intros Hm. unfold binary_round_aux.
  pose proof (shr_fexp_nonneg m e l Hm) as H1.
  destruct (shr_fexp prec emax m e l) as [mrs' e']. simpl in H1.
  pose proof (shr_fexp_nonneg _ e' loc_Exact
                (round_nearest_even_nonneg _ (loc_of_shr_record mrs') H1)) as H2.
  destruct (shr_fexp prec emax _ e' loc_Exact) as [mrs'' e'']. simpl in H2.
  destruct (shr_m mrs''); [reflexivity | | lia].
  destruct (e'' <=? emax - prec); reflexivity.
Qed.

Lemma div_core_nonneg m1 e1 m2 e2 :
  0 <= m1 -> 0 < m2 ->
  0 <= fst (fst (SFdiv_core_binary prec emax m1 e1 m2 e2)).
Proof.
  intros H1 H2. unfold SFdiv_core_binary.
  set (s := e1 - e2 - _).
  set (m' := match s with Z0 => m1 | Zpos _ => Z.shiftl m1 s | Zneg _ => 0 end).
  assert (Hm' : 0 <= m').
  { subst m'. destruct s; try lia. apply Z.shiftl_nonneg. exact H1. }
  pose proof (Z.div_pos m' m2 Hm' H2) as Hq. unfold Z.div in Hq.
  destruct (Z.div_eucl m' m2) as [q r]. exact Hq.
Qed.

Lemma ratio_not_nan s a b : 0 <= a -> 0 < b -> is_nan (ratio s a b) = false.
Proof.
  intros Ha Hb. unfold ratio.
  pose proof (div_core_nonneg a 0 b 0 Ha Hb) as Hq.
  destruct (SFdiv_core_binary prec emax a 0 b 0) as [[q e] l].
  apply binary_round_aux_not_nan. exact Hq.
Qed.

Lemma ratio_signed s a b : signed s (ratio s a b).
Proof.
  unfold ratio. destruct (SFdiv_core_binary prec emax a 0 b 0) as [[q e] l].
  apply binary_round_aux_signed.
Qed.

Lemma int_truediv_not_nan a b : b <> 0 -> is_nan (int_truediv a b) = false.
Proof.
  intros Hb. unfold int_truediv. destruct (a =? 0); [reflexivity |].
  apply ratio_not_nan; lia.
Qed.

Lemma div_finite_not_nan x s m e :
  is_nan x = false -> is_nan (div x (S754_finite s m e)) = false.
Proof.
  destruct x as [sx | sx | | sx mx ex]; simpl; intros Hx; try reflexivity;
    try discriminate Hx.
  unfold div, SFdiv.
  pose proof (div_core_nonneg (Zpos mx) ex (Zpos m) e ltac:(lia) ltac:(lia)) as Hq.
  destruct (SFdiv_core_binary prec emax (Zpos mx) ex (Zpos m) e) as [[q e'] l].
  apply binary_round_aux_not_nan. exact Hq.
Qed.

Lemma round_half_even_nonneg num den :
  0 <= num -> 0 < den -> 0 <= round_half_even num den.
Proof.
  intros Hn Hd. unfold round_half_even.
  pose proof (Z.div_pos num den Hn Hd).
  destruct (2 * (num mod den) ?= den); [destruct (Z.even _) | |]; lia.
Qed.

Lemma round_ndigits_not_nan x n :
  0 <= n -> is_nan x = false -> is_nan (round_ndigits x n) = false.
Proof.
  intros Hn. destruct x as [sx | sx | | sx mx ex]; simpl; intros Hx;
    try reflexivity; try discriminate Hx.
  set (k := round_half_even _ _).
  assert (Hk : 0 <= k).
  { apply round_half_even_nonneg.
    - apply Z.mul_nonneg_nonneg; [apply Z.mul_nonneg_nonneg; [lia |] |];
        apply Z.pow_nonneg; lia.
    - apply Z.pow_pos_nonneg; lia. }
  destruct (k =? 0); [reflexivity |].
  apply ratio_not_nan; [exact Hk |]. apply Z.pow_pos_nonneg; lia.
Qed.

(** *** Comparisons *)

Lemma SFcompare_antisym x y :
  SFcompare y x = option_map CompOpp (SFcompare x y).
Proof.
  destruct x as [sx | sx | | sx mx ex], y as [sy | sy | | sy my ey]; simpl;
    try reflexivity;
    try (destruct sx; reflexivity); try (destruct sy; reflexivity);
    try (destruct sx, sy; reflexivity).
  destruct sx, sy; try reflexivity; f_equal;
    rewrite (Z.compare_antisym ex ey);
    destruct (ex ?= ey); simpl; try reflexivity;
    rewrite (Pos.compare_cont_antisym mx my Eq); reflexivity.
Qed.

Lemma SFcompare_not_nan x y :
  is_nan x = false -> is_nan y = false -> exists c, SFcompare x y = Some c.
Proof.
  destruct x, y; simpl; intros Hx Hy; try discriminate; eauto.
Qed.

(** Away from NaN, [not (x < y)] is [y <= x]. *)
Lemma ltb_leb x y :
  is_nan x = false -> is_nan y = false -> ltb x y = negb (leb y x).
Proof.
  intros Hx Hy. unfold ltb, leb, SFltb, SFleb.
  rewrite (SFcompare_antisym x y).
  destruct (SFcompare_not_nan x y Hx Hy) as [c ->]. destruct c; reflexivity.
Qed.

Lemma signed_false_nonneg r : signed false r -> nonneg r = true.
Proof. destruct r; simpl; intros H; subst; reflexivity. Qed.

Lemma mul_self_nonneg x : nonneg (mul x x) = true.
Proof.
  destruct x as [s | s | | s m e];
    [destruct s; reflexivity | destruct s; reflexivity | reflexivity |].
  apply signed_false_nonneg. unfold mul, SFmul.
  replace (xorb s s) with false by (destruct s; reflexivity).
  apply binary_round_aux_signed.
Qed.

Lemma binary_round_signed s m e : signed s (binary_round prec emax s m e).
Proof.
  unfold binary_round. destruct (shl_align _ _ _) as [mz ez].
  apply binary_round_aux_signed.
Qed.

Lemma add_nonneg x y :
  nonneg x = true -> nonneg y = true -> nonneg (add x y) = true.
Proof.
  destruct x as [sx | sx | | sx mx ex], y as [sy | sy | | sy my ey];
    intros Hx Hy; try reflexivity;
    try (destruct sx; try discriminate Hx);
    try (destruct sy; try discriminate Hy); try reflexivity.
  apply signed_false_nonneg. unfold add, SFadd. simpl.
  apply binary_round_signed.
Qed.

Lemma div_nonneg x y :
  nonneg x = true -> nonneg y = true -> nonneg (div x y) = true.
Proof.
  destruct x as [sx | sx | | sx mx ex], y as [sy | sy | | sy my ey];
    intros Hx Hy; try reflexivity;
    try (destruct sx; try discriminate Hx);
    try (destruct sy; try discriminate Hy); try reflexivity.
  apply signed_false_nonneg. unfold div, SFdiv. simpl xorb.
  destruct (SFdiv_core_binary _ _ _ _ _ _) as [[q e'] l].
  apply binary_round_aux_signed.
Qed.

Lemma of_int_nonneg z : 0 <= z -> nonneg (of_int z) = true.
Proof.
  intros Hz. unfold of_int, binary_normalize.
  destruct z as [| p | p]; [reflexivity | | lia].
  apply signed_false_nonneg, binary_round_signed.
Qed.

Lemma fold_add_nonneg xs acc :
  Forall (fun x => nonneg x = true) xs -> nonneg acc = true ->
  nonneg (fold_left add xs acc) = true.
Proof.
  intros Hxs. revert acc. induction Hxs as [| x xs Hx _ IH]; intros acc Hacc.
  - exact Hacc.
  - simpl. apply IH, add_nonneg; assumption.
Qed.

(** On a float that is not below zero, [** 0.5] is the square root. *)
Lemma pow_half_nonneg x : nonneg x = true -> pow_half x = Ok (sqrt x).
Proof.
  destruct x as [s | s | | s m e]; simpl; intros Hx; try reflexivity;
    destruct s; try discriminate Hx; reflexivity.
Qed.

End FloatFacts.

(** ** The price metrics *)

Lemma pow2_Ok x sq : pow2 x = Ok sq -> sq = PyFloat.mul x x.
Proof.
  unfold pow2. destruct (_ && _); intros H; [discriminate H | congruence].
Qed.

Lemma sum_squares_Ok launch prices acc total :
  sum_squares launch prices acc = Ok total ->
  total = fold_left PyFloat.add (squared_deviations prices launch) acc.
Proof.
  revert acc. induction prices as [| p ps IH]; intros acc H; simpl in *.
  - congruence.
  - destruct (pow2 (PyFloat.sub p launch)) as [sq | e] eqn:Hsq; [| discriminate H].
    apply pow2_Ok in Hsq. subst sq. apply IH. exact H.
Qed.

Lemma sum_squares_total launch prices acc :
  Forall (fun p => exists sq, pow2 (PyFloat.sub p launch) = Ok sq) prices ->
  exists total, sum_squares launch prices acc = Ok total.
Proof.
  intros H. revert acc. induction H as [| p ps [sq Hsq] _ IH]; intros acc; simpl.
  - eauto.
  - rewrite Hsq. apply IH.
Qed.

Lemma squared_deviations_nonneg prices launch :
  Forall (fun x => nonneg x = true) (squared_deviations prices launch).
Proof.
  unfold squared_deviations. apply Forall_map, Forall_forall. intros p _.
  apply FloatFacts.mul_self_nonneg.
Qed.

Lemma mean_squared_deviations_nonneg prices launch :
  nonneg (mean (squared_deviations prices launch)) = true.
Proof.
  unfold mean. apply FloatFacts.div_nonneg.
  - apply FloatFacts.fold_add_nonneg;
      [apply squared_deviations_nonneg | reflexivity].
  - apply FloatFacts.of_int_nonneg. lia.
Qed.

Lemma price_variance_Ok prices launch v :
  price_variance prices launch = Ok v ->
  v = match prices with
      | [] => PyFloat.zero
      | _ :: _ => PyFloat.round_ndigits (rms_deviation prices launch) 6
      end.
Proof.
  unfold price_variance. destruct prices as [| p ps]; [congruence |].
  destruct (sum_squares launch (p :: ps) (PyFloat.of_int 0)) as [total | e] eqn:Hs;
    [| discriminate].
  apply sum_squares_Ok in Hs.
  change (PyFloat.of_int 0) with PyFloat.zero in Hs.
  assert (Hm : PyFloat.div total (PyFloat.of_int (Z.of_nat (length (p :: ps))))
               = mean (squared_deviations (p :: ps) launch)).
  { unfold mean, squared_deviations. rewrite length_map, Hs. reflexivity. }
  rewrite Hm, FloatFacts.pow_half_nonneg
    by apply mean_squared_deviations_nonneg.
  intros H. injection H as <-. reflexivity.
Qed.

Lemma price_variance_total prices launch :
  Forall (fun p => exists sq, pow2 (PyFloat.sub p launch) = Ok sq) prices ->
  exists v, price_variance prices launch = Ok v.
Proof.
  intros H. unfold price_variance. destruct prices as [| p ps]; [eauto |].
  destruct (sum_squares_total launch (p :: ps) (PyFloat.of_int 0) H) as [total Hs].
  rewrite Hs. pose proof (sum_squares_Ok _ _ _ _ Hs) as Ht.
  change (PyFloat.of_int 0) with PyFloat.zero in Ht.
  assert (Hm : PyFloat.div total (PyFloat.of_int (Z.of_nat (length (p :: ps))))
               = mean (squared_deviations (p :: ps) launch)).
  { unfold mean, squared_deviations. rewrite length_map, Ht. reflexivity. }
  rewrite Hm, FloatFacts.pow_half_nonneg
    by apply mean_squared_deviations_nonneg.
  eauto.
Qed.

(** ** Uptime *)

Lemma uptime_minutes_not_nan create_time termination_time :
  PyFloat.is_nan (uptime_minutes create_time termination_time) = false.
Proof.
  unfold uptime_minutes, total_seconds.
  apply FloatFacts.round_ndigits_not_nan; [lia |].
  change (PyFloat.of_int 60) with (S754_finite false 8444249301319680 (-47)).
  apply FloatFacts.div_finite_not_nan, FloatFacts.int_truediv_not_nan. lia.
Qed.

Lemma loop_run_members {A B} (f : A -> Py B) xs log rs log' :
  loop_run f xs log rs log' ->
  Forall2 (fun x r => x ∈ xs /\ exists l l', f x l = (Ok r, l')) xs rs.
Proof.
  induction 1 as [| x xs log r log1 rs log2 Hx _ IH]; constructor.
  - split; [left | eauto].
  - eapply Forall2_impl; [exact IH |].
    intros y r' [Hy Hr]. split; [right; exact Hy | exact Hr].
Qed.

Lemma sum_ones_length {A} (l : list A) : sum_list_with (fun _ => 1) l = length l.
Proof. induction l; simpl; congruence. Qed.

Lemma count_same_type_cutoff all req :
  count_same_type all (req_InstanceType req) (req_CreateTime req)
  = popularity_from_cutoff all req.
Proof. unfold count_same_type. rewrite sum_ones_length. reflexivity. Qed.

Lemma recent_terminated_subset spot_requests cutoff req :
  req ∈ recent_terminated spot_requests cutoff -> req ∈ spot_requests.
Proof. unfold recent_terminated. intros H. apply list_elem_of_filter in H. tauto. Qed.

Lemma popularity_from_cutoff_self batch target :
  target ∈ batch -> 1 <= popularity_from_cutoff batch target.
Proof.
  intros Hin. unfold popularity_from_cutoff.
  match goal with |- 1 <= length (filter ?P batch) =>
    assert (H : target ∈ filter P batch) end.
  { apply list_elem_of_filter. split; [| exact Hin].
    split; [reflexivity |]. unfold timedelta_minutes. lia. }
  destruct (filter _ batch); [inversion H | simpl; lia].
Qed.

(** What the script counts in every record of a run: the requests of the
    batch with the record's instance type that were created no earlier than
    60 minutes before it.  The comparison with the record's own creation
    time is missing, so requests created after it are counted too; the
    event itself always is. *)
Theorem popularity_counts_from_cutoff w recs log :
  main w [] = (Ok recs, log) ->
  exists spot_requests,
    ec2_describe_spot_instance_requests w = Ok spot_requests
    /\ Forall2
         (fun req rec =>
            InstancePopularity rec = popularity_from_cutoff spot_requests req
            /\ 1 <= InstancePopularity rec)
         (recent_terminated spot_requests (cutoff_time w)) recs.
Proof.
  intros H. apply main_Ok_inv in H as (account_id & spot_requests & _ & Hs & Hrun).
  exists spot_requests. split; [exact Hs |].
  eapply Forall2_impl; [exact (loop_run_members _ _ _ _ _ Hrun) |].
  intros req rec (Hin & l & l' & Hrec). unfold enrich_one in Hrec.
  apply enrich_Ok_inv in Hrec
    as (_ & _ & _ & _ & _ & _ & _ & _ & _ & _ & _ & Hpop & _).
  rewrite Hpop, count_same_type_cutoff. split; [reflexivity |].
  apply popularity_from_cutoff_self. eapply recent_terminated_subset, Hin.
Qed.

Lemma popularity_counts_from_cutoff_witness :
  exists spot_requests,
    ec2_describe_spot_instance_requests Sample.world = Ok spot_requests
    /\ Forall2
         (fun req rec =>
            InstancePopularity rec = popularity_from_cutoff spot_requests req
            /\ 1 <= InstancePopularity rec)
         (recent_terminated spot_requests (cutoff_time Sample.world))
         (records (main Sample.world [])).
Proof.
  apply (popularity_counts_from_cutoff Sample.world _
           (snd (main Sample.world []))).
  vm_compute. reflexivity.
Defined.

(** C1. On the batch of [Sample.world], two requests of one instance type
    created at t = 0 and at t = 10 min, the window of the specification
    gives the popularity 1 to the first event and 2 to the second.  The
    script gives 2 to both: it counts the request created 10 minutes after
    the first event, and the narrative of that event reports the 2 as
    launched in the past hour. *)
Theorem popularity_counts_later_requests :
  map (popularity_in_window [Sample.early; Sample.late])
      [Sample.early; Sample.late] = [1; 2]
  /\ map InstancePopularity (records (main Sample.world [])) = [2; 2]
  /\ map (fun rec =>
            contains "You launched 2 similar spot instances in the past hour"
              <$> Description rec)
         (records (main Sample.world []))
     = [Some true; Some true].
Proof.
  split; [vm_compute; reflexivity |]. split; vm_compute; reflexivity.
Qed.

(** C2 (as amended). Every recent termination is counted in the bucket keyed
    by its zone, and the key of an event without a zone is [None]: the
    looked-up count of any key, [None] included, is the number of recent
    terminations carrying that key, and a key has no bucket exactly when no
    recent termination carries it (the lookup then yields zero). *)
Theorem az_counter_counts_every_key (recent : list SpotRequest) (az : option string) :
  default 0 (az_counter recent !! az) = in_zone az recent
  /\ (az_counter recent !! az = None <-> in_zone az recent = 0).
Proof.
  pose proof (az_counter_lookup recent az) as Hlook.
  split; [exact Hlook |]. split.
  - intros Hnone. rewrite Hnone in Hlook. simpl in Hlook. congruence.
  - intros Hzero. destruct (az_counter recent !! az) as [n |] eqn:Hn; [| reflexivity].
    unfold az_counter in Hn. apply az_counter_fold_positive in Hn as [Hn | Hn].
    + rewrite lookup_empty in Hn. discriminate Hn.
    + simpl in Hlook. lia.
Qed.

Lemma missing_zone_bucket_counterexample :
  req_LaunchedAvailabilityZone Sample.unzoned = None
  /\ az_counter [Sample.unzoned] !! None = Some 1
  /\ az_counter [Sample.unzoned] <> az_counter [].
Proof.
  split; [reflexivity |]. split; [vm_compute; reflexivity |].
  intros H. apply (f_equal (fun m => m !! (None : option string))) in H.
  vm_compute in H. discriminate H.
Qed.

(** C3. A refused zone listing or a refused price-history request for any
    recent termination ends the run with that exception and no output. *)
Theorem unguarded_fetch_aborts_run w account_id spot_requests req e :
  sts_get_caller_identity w = Ok account_id ->
  ec2_describe_spot_instance_requests w = Ok spot_requests ->
  req ∈ recent_terminated spot_requests (cutoff_time w) ->
  ec2_describe_availability_zones w region = Raise e
  \/ ec2_describe_spot_price_history w (req_InstanceType req)
       (req_LaunchedAvailabilityZone req)
       (req_UpdateTime req - timedelta_hours 6) (req_UpdateTime req) = Raise e ->
  exists e' log, main w [] = (Raise e', log).
Proof.
  intros Ha Hs Hin Hfail.
  unfold main, get_spot_instance_requests.
  unfold bind at 1. unfold call at 1. rewrite Ha.
  unfold bind at 1. unfold call at 1. rewrite Hs.
  apply (for_each_append_Raise (enrich_one w account_id spot_requests)
           _ req); [exact Hin |].
  intros l. unfold enrich_one.
  destruct (ec2_describe_availability_zones w region) as [zones | e0] eqn:Hz.
  - destruct Hfail as [Hfail | Hfail]; [discriminate Hfail |].
    exists e. eapply enrich_Raise_prices; eassumption.
  - exists e0. eexists. apply enrich_Raise_zones. exact Hz.
Qed.

Lemma unguarded_fetch_aborts_run_witness :
  exists e' log, main Sample.no_price_world [] = (Raise e', log).
Proof.
  apply (unguarded_fetch_aborts_run Sample.no_price_world "123456789012"
           [Sample.early; Sample.late] Sample.early
           (ClientError "DescribeSpotPriceHistory")).
  - reflexivity.
  - reflexivity.
  - vm_compute. left.
  - right. reflexivity.
Defined.

Example refused_price_history_run :
  main Sample.no_price_world []
  = (Raise (ClientError "DescribeSpotPriceHistory"),
     [GetCallerIdentity; DescribeSpotInstanceRequests;
      DescribeAvailabilityZones "ap-south-1";
      DescribeSpotPriceHistory "m5.large" (Some "ap-south-1a")
        (-16200000000) 5400000000]).
Proof. vm_compute. reflexivity. Qed.

(** One request without a zone loses the record of the zoned one too. *)
Example unzoned_request_run :
  main Sample.unzoned_world []
  = (Raise ParamValidationError,
     [GetCallerIdentity; DescribeSpotInstanceRequests;
      DescribeAvailabilityZones "ap-south-1";
      DescribeSpotPriceHistory "m5.large" (Some "ap-south-1a")
        (-16200000000) 5400000000;
      DescribeInstanceTypes "m5.large"; DescribeInstanceTypes "m5.large";
      DescribeInstanceTypeOfferings "m5.large" (Some "ap-south-1a");
      DescribeAvailabilityZones "ap-south-1";
      DescribeSpotPriceHistory "m5.large" None (-16200000000) 5400000000]).
Proof. vm_compute. reflexivity. Qed.

Example refused_zone_listing_run :
  main Sample.no_zones_world []
  = (Raise (ClientError "DescribeAvailabilityZones"),
     [GetCallerIdentity; DescribeSpotInstanceRequests;
      DescribeAvailabilityZones "ap-south-1"]).
Proof. vm_compute. reflexivity. Qed.

(** Every record of a successful run is the record of the recent
    termination at the same position. *)
Lemma main_records w recs log :
  main w [] = (Ok recs, log) ->
  exists account_id spot_requests,
    ec2_describe_spot_instance_requests w = Ok spot_requests
    /\ Forall2
         (fun req rec =>
            req ∈ recent_terminated spot_requests (cutoff_time w)
            /\ exists l l',
                 enrich_one w account_id spot_requests req l = (Ok rec, l'))
         (recent_terminated spot_requests (cutoff_time w)) recs.
Proof.
  intros H. apply main_Ok_inv in H as (account_id & spot_requests & _ & Hs & Hrun).
  exists account_id, spot_requests. split; [exact Hs |].
  exact (loop_run_members _ _ _ _ _ Hrun).
Qed.

(** A property of every record that [enrich_termination_data] returns holds
    of every record of a successful run. *)
Lemma main_records_all (P : World -> SpotRequest -> Enriched -> Prop) w recs log :
  (forall account_id req all rds ads l rec l',
     enrich_termination_data w account_id req all rds ads l = (Ok rec, l') ->
     P w req rec) ->
  main w [] = (Ok recs, log) ->
  exists spot_requests,
    ec2_describe_spot_instance_requests w = Ok spot_requests
    /\ Forall2 (P w) (recent_terminated spot_requests (cutoff_time w)) recs.
Proof.
  intros HP H. apply main_records in H as (account_id & spot_requests & Hs & Hall).
  exists spot_requests. split; [exact Hs |].
  eapply Forall2_impl; [exact Hall |].
  intros req rec (_ & l & l' & Hrec). eapply HP. exact Hrec.
Qed.

(** ** Price endpoints *)

Lemma head_map {A B} (f : A -> B) l : head (map f l) = f <$> head l.
Proof. destruct l; reflexivity. Qed.

Lemma sorted_nonempty {A} (key : A -> Z) x xs : sorted key (x :: xs) <> [].
Proof.
  intros H. pose proof (sorted_Permutation key (x :: xs)) as Hp.
  rewrite H in Hp. apply Permutation_nil_r in Hp. discriminate Hp.
Qed.

(** The first sample after sorting is an earliest one of the response, the
    last a latest one. *)
Lemma sorted_endpoints (x : PriceSample) xs :
  exists first last_,
    head (sorted ps_Timestamp (x :: xs)) = Some first
    /\ last (sorted ps_Timestamp (x :: xs)) = Some last_
    /\ first ∈ x :: xs /\ last_ ∈ x :: xs
    /\ forall s, s ∈ x :: xs ->
         (ps_Timestamp first <= ps_Timestamp s <= ps_Timestamp last_)%Z.
Proof.
  pose proof (sorted_Permutation ps_Timestamp (x :: xs)) as Hperm.
  pose proof (sorted_Sorted ps_Timestamp (x :: xs)) as Hsorted.
  pose proof (sorted_nonempty ps_Timestamp x xs) as Hne.
  destruct (sorted ps_Timestamp (x :: xs)) as [| first rest] eqn:Hs; [congruence |].
  destruct (proj2 (last_is_Some (first :: rest)) Hne) as [last_ Hlast].
  exists first, last_. split; [reflexivity |]. split; [exact Hlast |].
  split; [rewrite Hperm; left |].
  split; [rewrite Hperm; eapply last_Some_elem_of; exact Hlast |].
  intros s Hin. rewrite Hperm in Hin. split.
  - exact (Sorted_head_least ps_Timestamp first rest s Hsorted Hin).
  - exact (Sorted_last_greatest ps_Timestamp _ last_ s Hsorted Hlast Hin).
Qed.


Lemma enrich_price_endpoints w account_id req all rds ads log rec log' :
  enrich_termination_data w account_id req all rds ads log = (Ok rec, log') ->
  price_endpoints w req rec.
Proof.
  intros H. apply enrich_Ok_inv in H
    as (zones & response & _ & Hr & _ & Hlaunch & Hterm & Htrend & _).
  exists response. split; [exact Hr |]. split; [| exact Htrend].
  destruct response as [| x xs]; [split; assumption |].
  destruct (sorted_endpoints x xs) as (first & last_ & Hhead & Hlast & Hf & Hl & Hall).
  exists first, last_. repeat split; try assumption; try (apply Hall; assumption).
  - rewrite Hlaunch. unfold spot_price_at_launch. rewrite head_map, Hhead. reflexivity.
  - rewrite Hterm. unfold spot_price_at_termination.
    change (map ps_SpotPrice ?l) with (ps_SpotPrice <$> l).
    rewrite fmap_last, Hlast. reflexivity.
Qed.

(** C4 (as amended). In every record of a run the launch price is the price
    of an earliest sample of the price response and the termination price
    that of a latest one, whatever order the response came in; both are the
    requested price when there is no sample; the trend of the record is the
    termination price minus the launch price, rounded to 6 decimals. *)
Theorem price_endpoints_after_sorting w recs log :
  main w [] = (Ok recs, log) ->
  exists spot_requests,
    ec2_describe_spot_instance_requests w = Ok spot_requests
    /\ Forall2 (price_endpoints w)
         (recent_terminated spot_requests (cutoff_time w)) recs.
Proof.
  apply (main_records_all price_endpoints). intros.
  eapply enrich_price_endpoints. eassumption.
Qed.

Lemma price_endpoints_after_sorting_witness :
  exists spot_requests,
    ec2_describe_spot_instance_requests Sample.priced_world = Ok spot_requests
    /\ Forall2 (price_endpoints Sample.priced_world)
         (recent_terminated spot_requests (cutoff_time Sample.priced_world))
         (records (main Sample.priced_world [])).
Proof.
  apply (price_endpoints_after_sorting Sample.priced_world _
           (snd (main Sample.priced_world []))).
  vm_compute. reflexivity.
Defined.

Example priced_world_endpoints :
  map (fun rec => (SpotPriceAtLaunch rec, SpotPriceAtTermination rec,
                   SpotPriceTrend rec))
      (records (main Sample.priced_world []))
  = [(PyFloat.zero, PyFloat.of_int 1, PyFloat.of_int 1);
     (PyFloat.zero, PyFloat.of_int 1, PyFloat.of_int 1)].
Proof. vm_compute. reflexivity. Qed.

(** With the launch price 0.1 and the termination price 0.3 the float
    difference is 0.19999999999999998; the records hold the trend 0.2. *)
Lemma trend_rounding_counterexample :
  map (fun rec => (SpotPriceAtLaunch rec, SpotPriceAtTermination rec,
                   SpotPriceTrend rec))
      (records (main MoreSamples.drifting_world []))
  = [(PyFloat.int_truediv 1 10, PyFloat.int_truediv 3 10,
      PyFloat.int_truediv 2 10);
     (PyFloat.int_truediv 1 10, PyFloat.int_truediv 3 10,
      PyFloat.int_truediv 2 10)]
  /\ PyFloat.repr
       (PyFloat.sub (PyFloat.int_truediv 3 10) (PyFloat.int_truediv 1 10))
     = "0.19999999999999998"
  /\ PyFloat.repr (PyFloat.int_truediv 2 10) = "0.2"
  /\ PyFloat.sub (PyFloat.int_truediv 3 10) (PyFloat.int_truediv 1 10)
     <> PyFloat.int_truediv 2 10.
Proof.
  split; [vm_compute; reflexivity |]. split; [vm_compute; reflexivity |].
  split; [vm_compute; reflexivity |]. vm_compute. discriminate.
Qed.

(** ** Dispersion *)





(** ** Uptime classes *)

(** Whatever is at least 120 is at least 30. *)
Lemma leb_120_30 u :
  PyFloat.leb (PyFloat.of_int 120) u = true ->
  PyFloat.leb (PyFloat.of_int 30) u = true.
Proof.
  change (PyFloat.of_int 120) with (S754_finite false 8444249301319680 (-46)).
  change (PyFloat.of_int 30) with (S754_finite false 8444249301319680 (-48)).
  unfold PyFloat.leb, SFleb.
  destruct u as [s | s | | s m e];
    [destruct s; simpl; auto | destruct s; simpl; auto | simpl; auto |].
  destruct s; [simpl; auto |]. cbn [SFcompare].
  destruct (Z.compare_spec (-46) e) as [<- | Hlt | Hgt]; [| | discriminate].
  - intros _. reflexivity.
  - intros _. destruct (Z.compare_spec (-48) e); [lia | reflexivity | lia].
Qed.

Lemma uptime_class_spec u :
  PyFloat.is_nan u = false ->
  (uptime_class u = "VeryShort" <-> PyFloat.ltb u (PyFloat.of_int 30) = true)
  /\ (uptime_class u = "Short"
      <-> PyFloat.leb (PyFloat.of_int 30) u = true
          /\ PyFloat.ltb u (PyFloat.of_int 120) = true)
  /\ (uptime_class u = "Long" <-> PyFloat.leb (PyFloat.of_int 120) u = true).
Proof.
  intros Hu.
  pose proof (FloatFacts.ltb_leb u (PyFloat.of_int 30) Hu eq_refl) as H30.
  pose proof (FloatFacts.ltb_leb u (PyFloat.of_int 120) Hu eq_refl) as H120.
  pose proof (leb_120_30 u) as Hmono.
  unfold uptime_class.
  destruct (PyFloat.ltb u (PyFloat.of_int 30)) eqn:Hlt30;
    destruct (PyFloat.ltb u (PyFloat.of_int 120)) eqn:Hlt120;
    destruct (PyFloat.leb (PyFloat.of_int 30) u);
    destruct (PyFloat.leb (PyFloat.of_int 120) u);
    simpl in H30, H120; try discriminate;
    try (specialize (Hmono eq_refl); discriminate);
    repeat split; intros; try discriminate; try reflexivity;
    try (destruct_and?; discriminate).
Qed.

Lemma enrich_uptime_class_bounds (w : World) account_id req all rds ads log rec log' :
  enrich_termination_data w account_id req all rds ads log = (Ok rec, log') ->
  uptime_class_bounds rec.
Proof.
  intros H. apply enrich_Ok_inv in H
    as (zones & response & _ & _ & _ & _ & _ & _ & Hup & _ & Hclass & _).
  unfold uptime_class_bounds. rewrite Hclass. apply uptime_class_spec.
  rewrite Hup. apply uptime_minutes_not_nan.
Qed.



(** 29.99, 30.00, 119.99 and 120.00 minutes. *)
Example uptime_class_boundaries :
  map uptime_class
    [PyFloat.int_truediv 2999 100; PyFloat.of_int 30;
     PyFloat.int_truediv 11999 100; PyFloat.of_int 120]
  = ["VeryShort"; "Short"; "Short"; "Long"].
Proof. vm_compute. reflexivity. Qed.

(** Uptimes read off the clock: 29 min 59.7 s rounds to 30.0 minutes. *)
Example uptime_minutes_rounds_up :
  uptime_minutes 0 1799700000 = PyFloat.of_int 30
  /\ uptime_class (uptime_minutes 0 1799700000) = "Short".
Proof. split; vm_compute; reflexivity. Qed.

(** ** Short-lived *)

Lemma enrich_short_lived_bound (w : World) account_id req all rds ads log rec log' :
  enrich_termination_data w account_id req all rds ads log = (Ok rec, log') ->
  short_lived_bound rec.
Proof.
  intros H. apply enrich_Ok_inv in H
    as (zones & response & _ & _ & _ & _ & _ & _ & Hup & Hshort & _).
  unfold short_lived_bound. rewrite Hshort. unfold is_short_lived.
  assert (Hu : PyFloat.is_nan (UptimeMinutes rec) = false)
    by (rewrite Hup; apply uptime_minutes_not_nan).
  rewrite (FloatFacts.ltb_leb _ (PyFloat.of_int 60) Hu eq_refl).
  split; [reflexivity |].
  destruct (PyFloat.leb (PyFloat.of_int 60) (UptimeMinutes rec)); simpl;
    split; congruence.
Qed.



(** The request created at t = 0 and reclaimed at t = 90 min. *)
Example ninety_minutes_record :
  map (fun rec => (PyFloat.repr (UptimeMinutes rec), UptimeClass rec,
                   IsShortLived rec))
      (records (main Sample.world []))
  = [("90.0", "Short", false); ("80.0", "Short", false)].
Proof. vm_compute. reflexivity. Qed.

(** ** The zone listing is requested once per event *)

Lemma az_mapping_fetches_app log1 log2 :
  az_mapping_fetches (log1 ++ log2)
  = az_mapping_fetches log1 + az_mapping_fetches log2.
Proof. unfold az_mapping_fetches. rewrite filter_app, length_app. reflexivity. Qed.

Lemma enrich_fetches_once w account_id req all rds ads log rec log' :
  enrich_termination_data w account_id req all rds ads log = (Ok rec, log') ->
  az_mapping_fetches log' = az_mapping_fetches log + 1.
Proof.
  intros H. apply enrich_Ok_inv in H
    as (zones & response & _ & _ & _ & _ & _ & _ & _ & _ & _ & _ & _ & _ & _ & _ & ->).
  rewrite az_mapping_fetches_app. reflexivity.
Qed.

Lemma loop_run_fetches w account_id spot_requests xs log rs log' :
  loop_run (enrich_one w account_id spot_requests) xs log rs log' ->
  az_mapping_fetches log' = az_mapping_fetches log + length rs.
Proof.
  induction 1 as [| x xs log r log1 rs log2 Hx _ IH]; simpl; [lia |].
  apply enrich_fetches_once in Hx. lia.
Qed.

(** C8 (as amended). A successful run requests the zone listing once for
    every record it produces, that is once per recent termination: nothing
    is kept from one event to the next. *)
Theorem az_mapping_fetched_per_event w recs log :
  main w [] = (Ok recs, log) ->
  az_mapping_fetches log = length recs
  /\ exists spot_requests,
       ec2_describe_spot_instance_requests w = Ok spot_requests
       /\ length recs = length (recent_terminated spot_requests (cutoff_time w)).
Proof.
  intros H. apply main_Ok_inv in H as (account_id & spot_requests & _ & Hs & Hrun).
  split.
  - apply loop_run_fetches in Hrun. exact Hrun.
  - exists spot_requests. split; [exact Hs |]. eapply loop_run_length, Hrun.
Qed.

Lemma az_mapping_fetched_per_event_witness :
  az_mapping_fetches (snd (main Sample.world []))
  = length (records (main Sample.world []))
  /\ exists spot_requests,
       ec2_describe_spot_instance_requests Sample.world = Ok spot_requests
       /\ length (records (main Sample.world []))
          = length (recent_terminated spot_requests (cutoff_time Sample.world)).
Proof.
  apply (az_mapping_fetched_per_event Sample.world).
  vm_compute. reflexivity.
Defined.

Lemma az_mapping_refetched_counterexample :
  length (records (main Sample.world [])) = 2
  /\ az_mapping_fetches (snd (main Sample.world [])) = 2.
Proof. split; vm_compute; reflexivity. Qed.

(** ** The narrative *)

(** Every record is [with_optionals] of its own optional fields. *)
Lemma with_optionals_self d :
  with_optionals d (InstanceId d) (AvailabilityZone d) (AvailabilityZoneId d)
    (NetworkPerformance d) (NetworkCardIndex d) (VpcId d) (SubnetId d) = d.
Proof. destruct d. reflexivity. Qed.

(** The narrative of the first record of [Sample.world] once its optional
    fields are emptied. *)
Example description_without_optionals :
  head (map (fun rec =>
               generate_description
                 (with_optionals rec None None None None None None None))
            (records (main Sample.world [])))
  = Some
      ("Instance None (type m5.large) was terminated because there was no available spot capacity in zone None. "
       +:+ "It had network performance of 'None' and used 'on-demand' CPU credits. "
       +:+ "The spot price remained stable at 0.045 USD. "
       +:+ "The instance lived for 90.0 minutes ('Short' uptime). "
       +:+ "You launched 2 similar spot instances in the past hour, indicating high demand in your account. "
       +:+ "In the past 180 minutes, your account had 2 spot terminations in region ap-south-1, with 1 in AZ None, showing capacity pressure. "
       +:+ "This was a 'one-time' spot request, meaning AWS did not retry after termination.").
Proof. vm_compute. reflexivity. Qed.

(** ** Demand scores *)

(** C10. In every record of a run the zone interruption rate is at least 1
    and at most the region demand score. *)
Theorem zone_rate_between_one_and_region w recs log :
  main w [] = (Ok recs, log) ->
  Forall (fun rec => 1 <= AZInterruptionRate rec <= RegionDemandScore rec) recs.
Proof.
  intros H. apply main_records in H as (account_id & spot_requests & _ & Hall).
  eapply Forall2_Forall_r; [exact Hall |].
  apply Forall_forall. intros req _ rec (Hin & l & l' & Hrec).
  unfold enrich_one in Hrec. apply enrich_Ok_inv in Hrec
    as (zones & response & _ & _ & _ & _ & _ & _ & _ & _ & _ & _ & _ & Hrds & Hads & _).
  rewrite Hrds, Hads, az_counter_lookup. split.
  - apply in_zone_member. exact Hin.
  - apply in_zone_le.
Qed.

Lemma zone_rate_between_one_and_region_witness :
  Forall (fun rec => 1 <= AZInterruptionRate rec <= RegionDemandScore rec)
         (records (main Sample.world [])).
Proof.
  apply (zone_rate_between_one_and_region Sample.world _
           (snd (main Sample.world []))).
  vm_compute. reflexivity.
Defined.

(** * Further properties *)

(** ** The rest of a record *)

(** The fields of a record that [enrich_Ok_inv] leaves out. *)
Lemma enrich_Ok_fields w account req all rds ads log rec log' :
  enrich_termination_data w account req all rds ads log = (Ok rec, log') ->
  exists zones network credit pool l3 l4 l5,
    ec2_describe_availability_zones w region = Ok zones
    /\ get_network_performance w (req_InstanceType req) l3 = (Ok network, l4)
    /\ get_cpu_credit_type w (req_InstanceType req) l4 = (Ok credit, l5)
    /\ get_pool_utilization_class w (req_InstanceType req)
         (req_LaunchedAvailabilityZone req) l5 = (Ok pool, log')
    /\ echoes req rec
    /\ AccountId rec = account
    /\ AvailabilityZoneId rec
       = req_LaunchedAvailabilityZone req
         ≫= (fun name =>
               fold_left (fun m az => <[az_ZoneName az := az_ZoneId az]> m)
                 zones (∅ : gmap string string) !! name)
    /\ DayOfWeek rec = strftime_A (local_time (req_UpdateTime req))
    /\ HourOfDay rec = hour (local_time (req_UpdateTime req))
    /\ IsWeekend rec = bool_decide (DayOfWeek rec ∈ ["Saturday"; "Sunday"])
    /\ NetworkPerformance rec = fst network
    /\ NetworkCardIndex rec = snd network
    /\ CpuCreditsType rec = credit
    /\ PoolUtilizationClass rec = pool.
Proof.
  unfold enrich_termination_data, get_az_id_mapping, get_spot_price_history.
  intros H.
  apply bind_Ok_inv in H as (mapping & l1 & H1 & H).
  apply bind_Ok_inv in H1 as (zones & l1' & Hz & H1).
  apply bind_Ok_inv in H as (history & l2 & H2 & H).
  apply bind_Ok_inv in H2 as (response & l2' & Hr & H2).
  apply bind_Ok_inv in H as (variance & l3 & H3 & H).
  apply bind_Ok_inv in H as (network & l4 & H4 & H).
  apply bind_Ok_inv in H as (credit & l5 & H5 & H).
  apply bind_Ok_inv in H as (pool & l6 & H6 & H).
  unfold call in Hz, Hr. unfold ret in H1, H2, H. unfold lift in H3.
  exists zones, network, credit, pool, l3, l4, l5. unfold echoes.
  simplify_eq. simpl.
  repeat split; try assumption; try reflexivity.
Qed.

(** ** The guarded lookups *)

(** X1. [get_network_performance] sends one request and never raises. It
    answers [(None, None)] when the request is refused, lists no instance
    type, or the first entry lacks the network information or its
    performance; otherwise it answers the performance and the card index of
    the first entry. The card index is never reported without the
    performance. *)
Theorem network_performance_outcomes w instance_type log :
  exists network,
    get_network_performance w instance_type log
    = (Ok network, log ++ [DescribeInstanceTypes instance_type])
    /\ (fst network = None -> snd network = None)
    /\ match ec2_describe_instance_types w instance_type with
       | Ok (first :: _) =>
           match it_NetworkInfo first with
           | Some info =>
               match ni_NetworkPerformance info with
               | Some perf =>
                   network = (Some perf, ni_DefaultNetworkCardIndex info)
               | None => network = (None, None)
               end
           | None => network = (None, None)
           end
       | Ok [] | Raise _ => network = (None, None)
       end.
Proof.
  unfold get_network_performance, try_except, bind, call, lift, ret.
  destruct (ec2_describe_instance_types w instance_type) as [[| first rest] | e];
    simpl; eauto.
  destruct (it_NetworkInfo first) as [info |]; simpl; eauto.
  destruct (ni_NetworkPerformance info) as [perf |]; simpl; eauto.
  eexists. repeat split. discriminate.
Qed.

(** X2. [get_cpu_credit_type] sends one request and never raises. It answers
    the first supported usage class of the first entry, ["standard"] when
    that entry has no such key, and ["unknown"] when the request is refused,
    lists no instance type, or the list of usage classes is empty. *)
Theorem cpu_credit_type_outcomes w instance_type log :
  exists credit,
    get_cpu_credit_type w instance_type log
    = (Ok credit, log ++ [DescribeInstanceTypes instance_type])
    /\ match ec2_describe_instance_types w instance_type with
       | Ok (first :: _) =>
           match it_SupportedUsageClasses first with
           | Some (usage :: _) => credit = usage
           | Some [] => credit = "unknown"
           | None => credit = "standard"
           end
       | Ok [] | Raise _ => credit = "unknown"
       end.
Proof.
  unfold get_cpu_credit_type, try_except, bind, call, lift, ret.
  destruct (ec2_describe_instance_types w instance_type) as [[| first rest] | e];
    simpl; eauto.
  destruct (it_SupportedUsageClasses first) as [[| usage usages] |]; simpl; eauto.
Qed.

(** X3. [get_pool_utilization_class] sends one request and never raises:
    it answers ["available"] exactly when the request lists an offering,
    ["unavailable"] exactly when it lists none, and ["unknown"] exactly when
    it is refused. *)
Theorem pool_utilization_outcomes w instance_type az log :
  exists pool,
    get_pool_utilization_class w instance_type az log
    = (Ok pool, log ++ [DescribeInstanceTypeOfferings instance_type az])
    /\ (pool = "available"
        <-> exists offering offerings,
              ec2_describe_instance_type_offerings w instance_type az
              = Ok (offering :: offerings))
    /\ (pool = "unavailable"
        <-> ec2_describe_instance_type_offerings w instance_type az = Ok [])
    /\ (pool = "unknown"
        <-> exists e,
              ec2_describe_instance_type_offerings w instance_type az = Raise e).
Proof.
  unfold get_pool_utilization_class, try_except, bind, call, ret.
  destruct (ec2_describe_instance_type_offerings w instance_type az)
    as [[| offering offerings] | e]; simpl; eexists; (split; [reflexivity |]);
    repeat split; intros; try discriminate; try reflexivity; eauto;
    repeat match goal with H : exists _, _ |- _ => destruct H end;
    discriminate.
Qed.

(** ** The zone ids *)

Lemma az_mapping_fold (zones : list ZoneInfo) (m : gmap string string) name :
  fold_left (fun m az => <[az_ZoneName az := az_ZoneId az]> m) zones m !! name
  = match az_id_of zones name with
    | Some id => Some id
    | None => m !! name
    end.
Proof.
  unfold az_id_of. revert m. induction zones as [| z zones IH]; intros m.
  - reflexivity.
  - simpl. rewrite IH, filter_cons.
    destruct (decide (az_ZoneName z = name)) as [Hz | Hz].
    + rewrite last_cons.
      destruct (last (filter _ zones)) as [z' |]; simpl; [reflexivity |].
      rewrite <- Hz. apply lookup_insert_eq.
    + destruct (last (filter _ zones)) as [z' |]; simpl; [reflexivity |].
      apply lookup_insert_ne. exact Hz.
Qed.

(** What [get_az_id_mapping] answers for a listing. *)
Lemma az_mapping_lookup (zones : list ZoneInfo) name :
  fold_left (fun m az => <[az_ZoneName az := az_ZoneId az]> m) zones
    (∅ : gmap string string) !! name
  = az_id_of zones name.
Proof.
  rewrite az_mapping_fold, lookup_empty. destruct (az_id_of zones name); reflexivity.
Qed.

Lemma az_id_of_listed zones name id :
  az_id_of zones name = Some id ->
  {| az_ZoneName := name; az_ZoneId := id |} ∈ zones.
Proof.
  unfold az_id_of. destruct (last (filter _ zones)) as [z |] eqn:Hlast;
    simpl; intros H; [| discriminate H].
  apply last_Some_elem_of, list_elem_of_filter in Hlast as [Hname Hin].
  destruct z as [n i]. simpl in *. congruence.
Qed.

Lemma az_id_of_unlisted zones name :
  az_id_of zones name = None <-> forall z, z ∈ zones -> az_ZoneName z <> name.
Proof.
  unfold az_id_of. split.
  - intros H z Hin Hname.
    assert (Hz : z ∈ filter (fun z => az_ZoneName z = name) zones)
      by (apply list_elem_of_filter; split; assumption).
    destruct (filter _ zones) as [| z0 zs] eqn:Hf; [inversion Hz |].
    destruct (proj2 (last_is_Some (z0 :: zs)) ltac:(discriminate)) as [z' Hz'].
    rewrite Hz' in H. discriminate H.
  - intros H. destruct (last (filter _ zones)) as [z |] eqn:Hlast; [| reflexivity].
    apply last_Some_elem_of, list_elem_of_filter in Hlast as [Hname Hin].
    destruct (H z Hin Hname).
Qed.

Lemma enrich_zone_id_resolved w account req all rds ads log rec log' :
  enrich_termination_data w account req all rds ads log = (Ok rec, log') ->
  zone_id_resolved w req rec.
Proof.
  intros H. apply enrich_Ok_fields in H
    as (zones & network & credit & pool & l3 & l4 & l5 & Hz & _ & _ & _ & _ & _
        & Hid & _).
  exists zones. split; [exact Hz |].
  assert (Hid' : AvailabilityZoneId rec
                 = req_LaunchedAvailabilityZone req ≫= az_id_of zones).
  { rewrite Hid. destruct (req_LaunchedAvailabilityZone req) as [name |];
      simpl; [apply az_mapping_lookup | reflexivity]. }
  split; [exact Hid' |]. rewrite Hid'. repeat split.
  - intros ->. reflexivity.
  - intros name -> Hnone. simpl. apply az_id_of_unlisted. exact Hnone.
  - intros id Hsome. destruct (req_LaunchedAvailabilityZone req) as [name |];
      simpl in Hsome; [| discriminate Hsome].
    exists name. split; [reflexivity |]. apply az_id_of_listed. exact Hsome.
Qed.

(** X4. In every record of a run the zone id is the one that the zone
    listing gives to the request's zone name: it is missing when the request
    has no zone or the listing has no entry of that name, and otherwise it
    is the id of a listed entry of that name (the last one, as in a dict
    comprehension). *)
Theorem zone_id_from_listing w recs log :
  main w [] = (Ok recs, log) ->
  exists spot_requests,
    ec2_describe_spot_instance_requests w = Ok spot_requests
    /\ Forall2 (zone_id_resolved w)
         (recent_terminated spot_requests (cutoff_time w)) recs.
Proof.
  apply (main_records_all zone_id_resolved). intros.
  eapply enrich_zone_id_resolved. eassumption.
Qed.

Lemma zone_id_from_listing_witness :
  exists spot_requests,
    ec2_describe_spot_instance_requests Sample.world = Ok spot_requests
    /\ Forall2 (zone_id_resolved Sample.world)
         (recent_terminated spot_requests (cutoff_time Sample.world))
         (records (main Sample.world [])).
Proof.
  apply (zone_id_from_listing Sample.world _ (snd (main Sample.world []))).
  vm_compute. reflexivity.
Defined.

Example zone_ids_of_sample_run :
  map AvailabilityZoneId (records (main Sample.world []))
  = [Some "aps1-az1"; Some "aps1-az3"].
Proof. vm_compute. reflexivity. Qed.

(** ** The price history *)

(** X5. [get_spot_price_history] sends one request. When it is answered,
    the function returns the same samples (a permutation of the response)
    in non-decreasing order of timestamp; when it is refused, the exception
    comes out unchanged. *)
Theorem price_history_sorted_or_raised w instance_type az start_time end_time log :
  match ec2_describe_spot_price_history w instance_type az start_time end_time with
  | Ok response =>
      exists history,
        get_spot_price_history w instance_type az start_time end_time log
        = (Ok history,
           log ++ [DescribeSpotPriceHistory instance_type az start_time end_time])
        /\ Permutation response history
        /\ Sorted (key_le ps_Timestamp) history
  | Raise e =>
      get_spot_price_history w instance_type az start_time end_time log
      = (Raise e,
         log ++ [DescribeSpotPriceHistory instance_type az start_time end_time])
  end.
Proof.
  unfold get_spot_price_history, bind, call, ret.
  destruct (ec2_describe_spot_price_history w instance_type az start_time end_time)
    as [response | e]; [| reflexivity].
  exists (sorted ps_Timestamp response). split; [reflexivity |]. split.
  - apply sorted_Permutation.
  - apply sorted_Sorted.
Qed.

(** *** Samples with the same timestamp *)

Section Stable.
Context {A : Type} (key : A -> Z).

Lemma insert_by_filter_same x xs :
  filter (fun y => key y = key x) (insert_by key x xs)
  = x :: filter (fun y => key y = key x) xs.
Proof.
  induction xs as [| y ys IH]; simpl.
  - rewrite filter_cons. rewrite decide_True by reflexivity. reflexivity.
  - destruct (Z.leb_spec (key x) (key y)) as [Hle | Hgt].
    + rewrite (filter_cons _ x). rewrite decide_True by reflexivity. reflexivity.
    + rewrite !(filter_cons _ y). rewrite !decide_False by lia. exact IH.
Qed.

Lemma insert_by_filter_other k x xs :
  key x <> k ->
  filter (fun y => key y = k) (insert_by key x xs)
  = filter (fun y => key y = k) xs.
Proof.
  intros Hne. induction xs as [| y ys IH]; simpl.
  - rewrite filter_cons. rewrite decide_False by exact Hne. reflexivity.
  - destruct (Z.leb_spec (key x) (key y)) as [Hle | Hgt].
    + rewrite (filter_cons _ x). rewrite decide_False by exact Hne. reflexivity.
    + rewrite !(filter_cons _ y). destruct (decide (key y = k)); congruence.
Qed.

(** [sorted] is stable: the elements of one key keep their order. *)
Lemma sorted_stable k xs :
  filter (fun y => key y = k) (sorted key xs) = filter (fun y => key y = k) xs.
Proof.
  induction xs as [| x xs IH]; simpl; [reflexivity |].
  rewrite (filter_cons _ x). destruct (decide (key x = k)) as [<- | Hne].
  - rewrite insert_by_filter_same, IH. reflexivity.
  - rewrite insert_by_filter_other by exact Hne. exact IH.
Qed.

Lemma head_filter_head (P : A -> Prop) `{forall x, Decision (P x)} x xs :
  head xs = Some x -> P x -> head (filter P xs) = Some x.
Proof.
  destruct xs as [| y ys]; simpl; intros Hh HP; [discriminate Hh |].
  simplify_eq. rewrite filter_cons, decide_True by exact HP. reflexivity.
Qed.

Lemma last_filter_last (P : A -> Prop) `{forall x, Decision (P x)} x xs :
  last xs = Some x -> P x -> last (filter P xs) = Some x.
Proof.
  induction xs as [| y ys IH]; intros Hl HP; [discriminate Hl |].
  rewrite filter_cons. destruct ys as [| y' ys'].
  - simpl in Hl. simplify_eq. rewrite decide_True by exact HP. reflexivity.
  - rewrite last_cons_cons in Hl. specialize (IH Hl HP).
    destruct (decide (P y)); [| exact IH].
    rewrite last_cons, IH. reflexivity.
Qed.

End Stable.

(** The first and the last sample after sorting, told by the response
    alone. *)
Lemma sorted_endpoints_stable (response : list PriceSample) first last_ :
  head (sorted ps_Timestamp response) = Some first ->
  last (sorted ps_Timestamp response) = Some last_ ->
  head (filter (fun s => ps_Timestamp s = ps_Timestamp first) response) = Some first
  /\ last (filter (fun s => ps_Timestamp s = ps_Timestamp last_) response)
     = Some last_.
Proof.
  intros Hh Hl. split.
  - rewrite <- sorted_stable. apply head_filter_head; [exact Hh | reflexivity].
  - rewrite <- sorted_stable. apply last_filter_last; [exact Hl | reflexivity].
Qed.

Lemma enrich_price_endpoints_in_response_order
    w account req all rds ads log rec log' :
  enrich_termination_data w account req all rds ads log = (Ok rec, log') ->
  price_endpoints_in_response_order w req rec.
Proof.
  intros H. apply enrich_Ok_inv in H
    as (zones & response & _ & Hr & _ & Hlaunch & Hterm & _).
  exists response. split; [exact Hr |]. intros Hne.
  destruct response as [| x xs]; [congruence |].
  destruct (sorted_endpoints x xs) as (first & last_ & Hhead & Hlast & _ & _ & Hall).
  destruct (sorted_endpoints_stable (x :: xs) first last_ Hhead Hlast)
    as [Hfirst Hlast'].
  exists first, last_. repeat split; try assumption; try (apply Hall; assumption).
  - rewrite Hlaunch. unfold spot_price_at_launch. rewrite head_map, Hhead. reflexivity.
  - rewrite Hterm. unfold spot_price_at_termination.
    change (map ps_SpotPrice ?l) with (ps_SpotPrice <$> l).
    rewrite fmap_last, Hlast. reflexivity.
Qed.

(** X6. When several samples share the earliest timestamp, the launch price
    of a record is the price of the one that comes first in the response;
    when several share the latest timestamp, the termination price is the
    price of the one that comes last in the response. *)
Theorem price_ties_follow_response_order w recs log :
  main w [] = (Ok recs, log) ->
  exists spot_requests,
    ec2_describe_spot_instance_requests w = Ok spot_requests
    /\ Forall2 (price_endpoints_in_response_order w)
         (recent_terminated spot_requests (cutoff_time w)) recs.
Proof.
  apply (main_records_all price_endpoints_in_response_order). intros.
  eapply enrich_price_endpoints_in_response_order. eassumption.
Qed.

(** X7. With distinct timestamps the order of the response does not matter:
    two worlds whose price responses are permutations of each other give
    the same sorted history. *)
Theorem price_history_ignores_response_order
    w1 w2 instance_type az start_time end_time log response1 response2 :
  ec2_describe_spot_price_history w1 instance_type az start_time end_time
  = Ok response1 ->
  ec2_describe_spot_price_history w2 instance_type az start_time end_time
  = Ok response2 ->
  Permutation response1 response2 ->
  NoDup (map ps_Timestamp response1) ->
  get_spot_price_history w1 instance_type az start_time end_time log
  = get_spot_price_history w2 instance_type az start_time end_time log.
Proof.
  intros H1 H2 Hperm Hnd. unfold get_spot_price_history, bind, call, ret.
  rewrite H1, H2, (sorted_order_irrelevant ps_Timestamp _ _ Hperm Hnd). reflexivity.
Qed.

(** ** The recent terminations *)

Lemma append_cons a s t : String a s +:+ t = String a (s +:+ t).
Proof. reflexivity. Qed.

Lemma append_empty t : "" +:+ t = t.
Proof. reflexivity. Qed.

Lemma prefix_occurs needle hay :
  String.prefix needle hay = true <-> exists after, hay = needle +:+ after.
Proof.
  revert hay. induction needle as [| a needle IH]; intros hay.
  - destruct hay; simpl; split; eauto.
  - destruct hay as [| b hay].
    + simpl. split; [discriminate | intros [after H]].
      rewrite append_cons in H. discriminate H.
    + change (String.prefix (String a needle) (String b hay))
        with (match Ascii.ascii_dec a b with
              | left _ => String.prefix needle hay
              | right _ => false
              end).
      destruct (Ascii.ascii_dec a b) as [<- | Hne].
      * rewrite IH. split; intros [after H]; exists after;
          rewrite append_cons in *; congruence.
      * split; [discriminate | intros [after H]].
        rewrite append_cons in H. congruence.
Qed.




(** A request that is only marked for termination is not a recent
    termination; one terminated by the user is. *)
Example status_codes_kept :
  map (contains "terminated")
    ["instance-terminated-by-user"; "instance-terminated-no-capacity";
     "marked-for-termination"; "fulfilled"]
  = [true; true; false; false].
Proof. vm_compute. reflexivity. Qed.

Lemma price_ties_follow_response_order_witness :
  exists spot_requests,
    ec2_describe_spot_instance_requests MoreSamples.tied_world = Ok spot_requests
    /\ Forall2 (price_endpoints_in_response_order MoreSamples.tied_world)
         (recent_terminated spot_requests (cutoff_time MoreSamples.tied_world))
         (records (main MoreSamples.tied_world [])).
Proof.
  apply (price_ties_follow_response_order MoreSamples.tied_world _
           (snd (main MoreSamples.tied_world []))).
  vm_compute. reflexivity.
Defined.

Example tied_world_endpoints :
  map (fun rec => (SpotPriceAtLaunch rec, SpotPriceAtTermination rec))
      (records (main MoreSamples.tied_world []))
  = [(PyFloat.of_int 1, PyFloat.of_int 4); (PyFloat.of_int 1, PyFloat.of_int 4)].
Proof. vm_compute. reflexivity. Qed.

Lemma price_history_ignores_response_order_witness :
  get_spot_price_history Sample.priced_world "m5.large" (Some "ap-south-1a") 0 1 []
  = get_spot_price_history MoreSamples.reversed_world "m5.large"
      (Some "ap-south-1a") 0 1 [].
Proof.
  apply (price_history_ignores_response_order Sample.priced_world
           MoreSamples.reversed_world "m5.large" (Some "ap-south-1a") 0%Z 1%Z []
           Sample.two_prices (reverse Sample.two_prices)).
  - reflexivity.
  - reflexivity.
  - vm_compute. apply perm_swap.
  - apply (bool_decide_unpack _). vm_compute. exact I.
Defined.

(** ** Records and requests *)

Lemma enrich_echoes (w : World) account req all rds ads log rec log' :
  enrich_termination_data w account req all rds ads log = (Ok rec, log') ->
  echoes req rec.
Proof.
  intros H. apply enrich_Ok_fields in H
    as (zones & network & credit & pool & l3 & l4 & l5 & _ & _ & _ & _ & He & _).
  exact He.
Qed.

Lemma echoes_request_ids (P : SpotRequest -> Enriched -> Prop) reqs recs :
  Forall2 (fun req rec => echoes req rec /\ P req rec) reqs recs ->
  map SpotInstanceRequestId recs = map req_SpotInstanceRequestId reqs.
Proof.
  induction 1 as [| req rec reqs recs [He _] _ IH]; simpl; [reflexivity |].
  rewrite IH. destruct He as (_ & -> & _). reflexivity.
Qed.

(** X9. A successful run returns one record per recent termination, in the
    order of the listing, and each record repeats the identifiers, instance
    type, zone, price, timestamps, state and status of its request; the
    request type is "unknown" when the request has none, the region is the
    configured one and the account is the caller's. *)
Theorem records_follow_requests w recs log :
  main w [] = (Ok recs, log) ->
  exists account_id spot_requests,
    sts_get_caller_identity w = Ok account_id
    /\ ec2_describe_spot_instance_requests w = Ok spot_requests
    /\ Forall2 (fun req rec => echoes req rec /\ AccountId rec = account_id)
         (recent_terminated spot_requests (cutoff_time w)) recs
    /\ map SpotInstanceRequestId recs
       = map req_SpotInstanceRequestId
           (recent_terminated spot_requests (cutoff_time w)).
Proof.
  intros H. apply main_Ok_inv in H as (account_id & spot_requests & Ha & Hs & Hrun).
  exists account_id, spot_requests. split; [exact Ha |]. split; [exact Hs |].
  assert (Hall : Forall2 (fun req rec => echoes req rec /\ AccountId rec = account_id)
                   (recent_terminated spot_requests (cutoff_time w)) recs).
  { eapply Forall2_impl; [exact (loop_run_members _ _ _ _ _ Hrun) |].
    intros req rec (_ & l & l' & Hrec). unfold enrich_one in Hrec.
    apply enrich_Ok_fields in Hrec
      as (zones & network & credit & pool & l3 & l4 & l5 & _ & _ & _ & _ & He
          & Hacc & _).
    split; assumption. }
  split; [exact Hall |].
  exact (echoes_request_ids (fun _ rec => AccountId rec = account_id) _ _ Hall).
Qed.

Lemma records_follow_requests_witness :
  exists account_id spot_requests,
    sts_get_caller_identity Sample.world = Ok account_id
    /\ ec2_describe_spot_instance_requests Sample.world = Ok spot_requests
    /\ Forall2 (fun req rec => echoes req rec /\ AccountId rec = account_id)
         (recent_terminated spot_requests (cutoff_time Sample.world))
         (records (main Sample.world []))
    /\ map SpotInstanceRequestId (records (main Sample.world []))
       = map req_SpotInstanceRequestId
           (recent_terminated spot_requests (cutoff_time Sample.world)).
Proof.
  apply (records_follow_requests Sample.world _ (snd (main Sample.world []))).
  vm_compute. reflexivity.
Defined.

(** ** The requests of a run *)

Lemma loop_run_calls w account_id spot_requests xs log rs log' :
  loop_run (enrich_one w account_id spot_requests) xs log rs log' ->
  log' = log ++ concat (map event_calls xs).
Proof.
  induction 1 as [| x xs log r log1 rs log2 Hx _ IH]; simpl.
  - symmetry. apply app_nil_r.
  - unfold enrich_one in Hx. apply enrich_Ok_inv in Hx
      as (zones & response & _ & _ & _ & _ & _ & _ & _ & _ & _ & _ & _ & _ & _ & _
          & ->).
    rewrite IH. unfold event_calls. rewrite <- !app_assoc. reflexivity.
Qed.

(** X10. A successful run sends, in this order, the caller-identity
    request, the listing of the spot requests and then, for each recent
    termination in turn, five requests: zone listing, price history,
    instance types twice (once for the network performance, once for the
    usage class) and instance-type offerings. That is 2 + 5n requests for n
    records. *)
Theorem requests_of_a_run w recs log :
  main w [] = (Ok recs, log) ->
  exists spot_requests,
    ec2_describe_spot_instance_requests w = Ok spot_requests
    /\ log = [GetCallerIdentity; DescribeSpotInstanceRequests]
             ++ concat (map event_calls
                          (recent_terminated spot_requests (cutoff_time w)))
    /\ length log = 2 + 5 * length recs.
Proof.
  intros H. apply main_Ok_inv in H as (account_id & spot_requests & _ & Hs & Hrun).
  exists spot_requests. split; [exact Hs |].
  pose proof (loop_run_calls _ _ _ _ _ _ _ Hrun) as Hlog.
  pose proof (loop_run_length _ _ _ _ _ Hrun) as Hlen.
  split; [exact Hlog |]. rewrite Hlog, Hlen, length_app. simpl. f_equal. f_equal.
  clear. induction (recent_terminated _ _) as [| req reqs IH]; simpl; [reflexivity |].
  rewrite IH. lia.
Qed.

Lemma requests_of_a_run_witness :
  exists spot_requests,
    ec2_describe_spot_instance_requests Sample.world = Ok spot_requests
    /\ snd (main Sample.world [])
       = [GetCallerIdentity; DescribeSpotInstanceRequests]
         ++ concat (map event_calls
                      (recent_terminated spot_requests (cutoff_time Sample.world)))
    /\ length (snd (main Sample.world []))
       = 2 + 5 * length (records (main Sample.world [])).
Proof.
  apply (requests_of_a_run Sample.world). vm_compute. reflexivity.
Defined.

(** ** Before the loop *)

(** X11. A refused caller-identity request ends the run at once, a refused
    listing of the spot requests ends it after two requests, each with the
    exception of the refusal; a listing without recent terminations gives
    the empty list of records after those two requests. In none of these
    cases is a per-event request sent. *)
Theorem run_without_events w : outcome_before_loop w.
Proof.
  unfold outcome_before_loop, main, get_spot_instance_requests, bind, call.
  destruct (sts_get_caller_identity w) as [account_id | e]; [| reflexivity].
  destruct (ec2_describe_spot_instance_requests w) as [spot_requests | e];
    [| reflexivity].
  destruct (recent_terminated spot_requests (cutoff_time w)); [reflexivity | exact I].
Qed.

Example quiet_run :
  main MoreSamples.quiet_world []
  = (Ok [], [GetCallerIdentity; DescribeSpotInstanceRequests]).
Proof. vm_compute. reflexivity. Qed.

Example anonymous_run :
  main MoreSamples.anonymous_world []
  = (Raise (ClientError "GetCallerIdentity"), [GetCallerIdentity]).
Proof. vm_compute. reflexivity. Qed.

Example unlisted_run :
  main MoreSamples.unlisted_world []
  = (Raise (ClientError "DescribeSpotInstanceRequests"),
     [GetCallerIdentity; DescribeSpotInstanceRequests]).
Proof. vm_compute. reflexivity. Qed.

(** ** When a run succeeds *)

(** X12. A run returns its records exactly when the caller identity and the
    listing of the spot requests are answered and, for every recent
    termination, the zone listing and the price history are answered and
    the dispersion can be computed. *)
Theorem run_succeeds_iff w :
  (exists recs log, main w [] = (Ok recs, log))
  <-> exists account_id spot_requests,
        sts_get_caller_identity w = Ok account_id
        /\ ec2_describe_spot_instance_requests w = Ok spot_requests
        /\ forall req,
             req ∈ recent_terminated spot_requests (cutoff_time w) ->
             enrichable w req.
Proof.
  split.
  - intros (recs & log & H).
    apply main_Ok_inv in H as (account_id & spot_requests & Ha & Hs & Hrun).
    exists account_id, spot_requests. split; [exact Ha |]. split; [exact Hs |].
    intros req Hin. apply loop_run_members in Hrun.
    apply list_elem_of_lookup in Hin as [i Hi].
    destruct (Forall2_lookup_l _ _ _ _ _ Hrun Hi) as (rec & _ & _ & l & l' & Hrec).
    unfold enrich_one in Hrec. apply enrich_Ok_inv in Hrec
      as (zones & response & Hz & Hr & Hv & Hlaunch & _).
    exists zones, response, (PriceVariance rec). rewrite <- Hlaunch. auto.
  - intros (account_id & spot_requests & Ha & Hs & Hall).
    unfold main, get_spot_instance_requests.
    unfold bind at 1. unfold call at 1. rewrite Ha.
    unfold bind at 1. unfold call at 1. rewrite Hs.
    apply (for_each_append_Ok (enrich_one w account_id spot_requests)).
    intros req l Hin.
    destruct (Hall req Hin) as (zones & response & variance & Hz & Hr & Hv).
    unfold enrich_one. eapply enrich_Ok_intro; eassumption.
Qed.

(** ** The dispersion can overflow *)

Lemma pow2_outcome x :
  match pow2 x with
  | Ok sq => sq = PyFloat.mul x x
             /\ ~ (PyFloat.is_finite x = true
                   /\ PyFloat.is_finite (PyFloat.mul x x) = false)
  | Raise e => e = OverflowError
               /\ PyFloat.is_finite x = true
               /\ PyFloat.is_finite (PyFloat.mul x x) = false
  end.
Proof.
  unfold pow2. destruct (PyFloat.is_finite x); simpl.
  - destruct (PyFloat.is_finite (PyFloat.mul x x)); simpl; intuition congruence.
  - intuition congruence.
Qed.

Lemma sum_squares_outcome launch prices acc :
  match sum_squares launch prices acc with
  | Ok _ => forall p, p ∈ prices -> ~ square_overflows launch p
  | Raise e => e = OverflowError /\ exists p, p ∈ prices /\ square_overflows launch p
  end.
Proof.
  revert acc. induction prices as [| p ps IH]; intros acc; simpl.
  - intros p Hp. inversion Hp.
  - pose proof (pow2_outcome (PyFloat.sub p launch)) as Hp.
    destruct (pow2 (PyFloat.sub p launch)) as [sq | e].
    + destruct Hp as [-> Hfine]. specialize (IH (PyFloat.add acc
        (PyFloat.mul (PyFloat.sub p launch) (PyFloat.sub p launch)))).
      destruct (sum_squares launch ps _) as [total | e].
      * intros q Hq. apply elem_of_cons in Hq as [-> | Hq]; [exact Hfine | auto].
      * destruct IH as (-> & q & Hq & Hover). split; [reflexivity |].
        exists q. split; [right; exact Hq | exact Hover].
    + destruct Hp as (-> & Hover). split; [reflexivity |].
      exists p. split; [left | exact Hover].
Qed.

(** X13. The dispersion of a price list is computed unless the square of
    some deviation from the launch price overflows the floats; then, and
    only then, the computation raises, and what it raises is
    OverflowError. *)
Theorem price_variance_fails_only_on_overflow prices launch :
  match price_variance prices launch with
  | Ok _ => forall p, p ∈ prices -> ~ square_overflows launch p
  | Raise e => e = OverflowError /\ exists p, p ∈ prices /\ square_overflows launch p
  end.
Proof.
  unfold price_variance. destruct prices as [| p ps].
  - intros q Hq. inversion Hq.
  - pose proof (sum_squares_outcome launch (p :: ps) (PyFloat.of_int 0)) as Hs.
    destruct (sum_squares launch (p :: ps) (PyFloat.of_int 0)) as [total | e] eqn:Ht;
      [| exact Hs].
    apply sum_squares_Ok in Ht. change (PyFloat.of_int 0) with PyFloat.zero in Ht.
    assert (Hm : PyFloat.div total (PyFloat.of_int (Z.of_nat (length (p :: ps))))
                 = mean (squared_deviations (p :: ps) launch)).
    { unfold mean, squared_deviations. rewrite length_map, Ht. reflexivity. }
    rewrite Hm, FloatFacts.pow_half_nonneg
      by apply mean_squared_deviations_nonneg.
    exact Hs.
Qed.

(** A price of 2^600 beside a launch price of 0.0. *)
Example huge_price_overflows :
  price_variance [PyFloat.zero; S754_finite false 4503599627370496 548]
    PyFloat.zero
  = Raise OverflowError.
Proof. vm_compute. reflexivity. Qed.

(** ** The demand scores, read off the records *)

Lemma zone_counts_agree (az : option string) reqs recs :
  Forall2 (fun req rec => AvailabilityZone rec = req_LaunchedAvailabilityZone req)
    reqs recs ->
  in_zone az reqs = length (filter (fun rec => AvailabilityZone rec = az) recs).
Proof.
  unfold in_zone. induction 1 as [| req rec reqs recs Hz _ IH]; [reflexivity |].
  rewrite !filter_cons, Hz.
  destruct (decide (req_LaunchedAvailabilityZone req = az)); simpl; congruence.
Qed.

(** X14. In a successful run every record carries the number of records as
    its region demand score, and as its zone interruption rate the number
    of records with the same zone, where a missing zone counts as a zone of
    its own. *)
Theorem scores_count_the_records w recs log :
  main w [] = (Ok recs, log) ->
  Forall (fun rec =>
            RegionDemandScore rec = length recs
            /\ AZInterruptionRate rec
               = length (filter (fun other => AvailabilityZone other
                                              = AvailabilityZone rec) recs))
         recs.
Proof.
  intros H. apply main_records in H as (account_id & spot_requests & _ & Hall).
  set (recent := recent_terminated spot_requests (cutoff_time w)) in *.
  assert (Hfields : Forall2 (fun req rec =>
                       AvailabilityZone rec = req_LaunchedAvailabilityZone req
                       /\ RegionDemandScore rec = length recent
                       /\ AZInterruptionRate rec
                          = in_zone (req_LaunchedAvailabilityZone req) recent)
                      recent recs).
  { eapply Forall2_impl; [exact Hall |].
    intros req rec (_ & l & l' & Hrec). unfold enrich_one in Hrec.
    apply enrich_Ok_inv in Hrec
      as (zones & response & _ & _ & _ & _ & _ & _ & _ & _ & _ & _ & Hz & Hrds
          & Hads & _).
    rewrite Hads, az_counter_lookup. auto. }
  assert (Hzones : Forall2 (fun req rec =>
                      AvailabilityZone rec = req_LaunchedAvailabilityZone req)
                     recent recs).
  { eapply Forall2_impl; [exact Hfields |]. intros req rec (Hz & _). exact Hz. }
  pose proof (Forall2_length _ _ _ Hfields) as Hlen.
  eapply Forall2_Forall_r; [exact Hfields |].
  apply Forall_forall. intros req _ rec (Hz & Hrds & Hads).
  rewrite Hrds, Hads, <- Hz, Hlen. split; [reflexivity |].
  apply zone_counts_agree. exact Hzones.
Qed.

Lemma scores_count_the_records_witness :
  Forall (fun rec =>
            RegionDemandScore rec = length (records (main Sample.world []))
            /\ AZInterruptionRate rec
               = length (filter (fun other => AvailabilityZone other
                                              = AvailabilityZone rec)
                           (records (main Sample.world []))))
         (records (main Sample.world [])).
Proof.
  apply (scores_count_the_records Sample.world _ (snd (main Sample.world []))).
  vm_compute. reflexivity.
Defined.

(** ** The buckets add up *)

Lemma bucket_total_bump (counter : gmap (option string) nat) az :
  bucket_total (<[az := default 0 (counter !! az) + 1]> counter)
  = bucket_total counter + 1.
Proof.
  unfold bucket_total.
  destruct (counter !! az) as [n |] eqn:Hn; simpl.
  - rewrite <- insert_delete_eq.
    rewrite map_fold_insert_L; [| intros; lia | apply lookup_delete_eq].
    rewrite (map_fold_delete_L _ _ az n counter); [lia | intros; lia | exact Hn].
  - rewrite map_fold_insert_L; [lia | intros; lia | exact Hn].
Qed.

Lemma bucket_total_fold (recent : list SpotRequest)
    (counter : gmap (option string) nat) :
  bucket_total
    (fold_left
       (fun counter req =>
          let az := req_LaunchedAvailabilityZone req in
          <[az := default 0 (counter !! az) + 1]> counter)
       recent counter)
  = bucket_total counter + length recent.
Proof.
  revert counter. induction recent as [| req recent IH]; intros counter; simpl.
  - lia.
  - rewrite IH, bucket_total_bump. lia.
Qed.

(** X15. The buckets of the zone counter add up to the number of recent
    terminations: every recent termination is counted in exactly one
    bucket. *)
Theorem buckets_add_up_to_region recent :
  bucket_total (az_counter recent) = length recent.
Proof.
  unfold az_counter. rewrite bucket_total_fold. unfold bucket_total.
  rewrite map_fold_empty. reflexivity.
Qed.

(** ** The calendar fields *)

Lemma hour_bounds t : (0 <= hour t < 24)%Z.
Proof.
  unfold hour.
  pose proof (Z.mod_pos_bound t 86400000000 ltac:(lia)) as Hm.
  split.
  - apply Z.div_pos; lia.
  - apply Z.div_lt_upper_bound; lia.
Qed.

Lemma strftime_A_weekday t : strftime_A t ∈ weekday_names.
Proof.
  unfold strftime_A.
  pose proof (Z.mod_pos_bound (t / 86400000000 + 3) 7 ltac:(lia)) as Hm.
  set (n := Z.to_nat ((t / 86400000000 + 3) mod 7)).
  assert (Hn : n < 7) by (subst n; lia).
  unfold weekday_names.
  do 7 (destruct n as [| n]; [simpl; repeat constructor |]). lia.
Qed.

Lemma enrich_calendar_ok (w : World) account req all rds ads log rec log' :
  enrich_termination_data w account req all rds ads log = (Ok rec, log') ->
  calendar_ok rec.
Proof.
  intros H. apply enrich_Ok_fields in H
    as (zones & network & credit & pool & l3 & l4 & l5 & _ & _ & _ & _ & _ & _ & _
        & Hday & Hhour & Hweekend & _).
  unfold calendar_ok. rewrite Hhour, Hweekend, Hday. split; [apply hour_bounds |].
  split; [apply strftime_A_weekday |].
  rewrite bool_decide_eq_true, !elem_of_cons, elem_of_nil. tauto.
Qed.

(** X16. In every record of a run the hour of day lies between 0 and 23,
    the day of the week is one of the seven English day names, and the
    weekend flag is set exactly on "Saturday" and "Sunday". *)
Theorem calendar_fields_well_formed w recs log :
  main w [] = (Ok recs, log) -> Forall calendar_ok recs.
Proof.
  intros H.
  destruct (main_records_all (fun _ _ => calendar_ok) w recs log)
    as (spot_requests & _ & Hall); [| exact H |].
  - intros. eapply enrich_calendar_ok. eassumption.
  - eapply Forall2_Forall_r; [exact Hall |].
    apply Forall_forall. intros req _ rec Hrec. exact Hrec.
Qed.

Lemma calendar_fields_well_formed_witness :
  Forall calendar_ok (records (main Sample.world [])).
Proof.
  apply (calendar_fields_well_formed Sample.world _ (snd (main Sample.world []))).
  vm_compute. reflexivity.
Defined.

(** 1970-01-03 20:00 UTC is Sunday 01:30 in Kolkata. *)
Example calendar_across_midnight :
  (strftime_A (local_time 244800000000), hour (local_time 244800000000))
  = ("Sunday", 1%Z).
Proof. vm_compute. reflexivity. Qed.

(** ** The sign of the uptime *)

Lemma round_ndigits_nonneg x n : nonneg x = true -> nonneg (PyFloat.round_ndigits x n) = true.
Proof.
  destruct x as [s | s | | s m e]; simpl; intros Hx; try exact Hx.
  destruct (_ =? 0)%Z; [exact Hx |].
  pose proof (FloatFacts.ratio_signed s
                (PyFloat.round_half_even
                   (Z.pos m * 10 ^ n * 2 ^ Z.max e 0) (2 ^ Z.max (- e) 0))
                (10 ^ n)) as Hs.
  destruct s; [discriminate Hx |]. apply FloatFacts.signed_false_nonneg. exact Hs.
Qed.

Lemma total_seconds_nonneg td : (0 <= td)%Z -> nonneg (total_seconds td) = true.
Proof.
  intros Htd. unfold total_seconds, PyFloat.int_truediv.
  destruct (Z.eqb_spec td 0); [reflexivity |].
  replace (td <? 0)%Z with false by (symmetry; apply Z.ltb_ge; exact Htd).
  apply FloatFacts.signed_false_nonneg. simpl xorb. apply FloatFacts.ratio_signed.
Qed.

Lemma leb_zero_nonneg x :
  PyFloat.is_nan x = false -> nonneg x = true -> PyFloat.leb PyFloat.zero x = true.
Proof.
  destruct x as [s | s | | s m e]; simpl; intros Hnan Hx; try discriminate;
    destruct s; try discriminate; reflexivity.
Qed.

(** X17. In every record of a run whose request was updated no earlier than
    it was created, the uptime is at least 0.0. *)
Theorem uptime_not_negative w recs log :
  main w [] = (Ok recs, log) ->
  Forall (fun rec =>
            (CreateTime rec <= TerminationTime rec)%Z ->
            PyFloat.leb PyFloat.zero (UptimeMinutes rec) = true)
         recs.
Proof.
  intros H. apply main_records in H as (account_id & spot_requests & _ & Hall).
  eapply Forall2_Forall_r; [exact Hall |].
  apply Forall_forall. intros req _ rec (_ & l & l' & Hrec). unfold enrich_one in Hrec.
  pose proof (enrich_echoes _ _ _ _ _ _ _ _ _ Hrec)
    as (_ & _ & _ & _ & _ & Hc & Ht & _).
  apply enrich_Ok_inv in Hrec
    as (zones & response & _ & _ & _ & _ & _ & _ & Hup & _).
  rewrite Hc, Ht, Hup. intros Hle.
  apply leb_zero_nonneg; [apply uptime_minutes_not_nan |].
  unfold uptime_minutes. apply round_ndigits_nonneg, FloatFacts.div_nonneg.
  - apply total_seconds_nonneg. lia.
  - reflexivity.
Qed.

Lemma uptime_not_negative_witness :
  Forall (fun rec =>
            (CreateTime rec <= TerminationTime rec)%Z ->
            PyFloat.leb PyFloat.zero (UptimeMinutes rec) = true)
         (records (main Sample.world [])).
Proof.
  apply (uptime_not_negative Sample.world _ (snd (main Sample.world []))).
  vm_compute. reflexivity.
Defined.

(** ** Class and flag together *)

Lemma ltb_30_60 u :
  PyFloat.ltb u (PyFloat.of_int 30) = true -> PyFloat.ltb u (PyFloat.of_int 60) = true.
Proof.
  change (PyFloat.of_int 30) with (S754_finite false 8444249301319680 (-48)).
  change (PyFloat.of_int 60) with (S754_finite false 8444249301319680 (-47)).
  unfold PyFloat.ltb, SFltb.
  destruct u as [s | s | | s m e];
    [destruct s; simpl; auto | destruct s; simpl; auto | simpl; auto |].
  destruct s; [simpl; auto |]. cbn [SFcompare].
  destruct (Z.compare_spec e (-48)) as [-> | Hlt | Hgt]; [| | discriminate].
  - intros _. reflexivity.
  - intros _. destruct (Z.compare_spec e (-47)); [lia | reflexivity | lia].
Qed.

Lemma leb_120_60 u :
  PyFloat.leb (PyFloat.of_int 120) u = true ->
  PyFloat.leb (PyFloat.of_int 60) u = true.
Proof.
  change (PyFloat.of_int 120) with (S754_finite false 8444249301319680 (-46)).
  change (PyFloat.of_int 60) with (S754_finite false 8444249301319680 (-47)).
  unfold PyFloat.leb, SFleb.
  destruct u as [s | s | | s m e];
    [destruct s; simpl; auto | destruct s; simpl; auto | simpl; auto |].
  destruct s; [simpl; auto |]. cbn [SFcompare].
  destruct (Z.compare_spec (-46) e) as [<- | Hlt | Hgt]; [| | discriminate].
  - intros _. reflexivity.
  - intros _. destruct (Z.compare_spec (-47) e); [lia | reflexivity | lia].
Qed.

Lemma uptime_class_range u : uptime_class u ∈ ["VeryShort"; "Short"; "Long"].
Proof.
  unfold uptime_class.
  destruct (PyFloat.ltb u (PyFloat.of_int 30)); [left |].
  destruct (PyFloat.ltb u (PyFloat.of_int 120)); [right; left | right; right; left].
Qed.

(** X18. The two uptime thresholds never contradict each other: in every
    record of a run the class is one of "VeryShort", "Short" and "Long", a
    "VeryShort" record is short-lived and a "Long" record is not. *)
Theorem class_and_flag_agree w recs log :
  main w [] = (Ok recs, log) ->
  Forall (fun rec =>
            UptimeClass rec ∈ ["VeryShort"; "Short"; "Long"]
            /\ (UptimeClass rec = "VeryShort" -> IsShortLived rec = true)
            /\ (UptimeClass rec = "Long" -> IsShortLived rec = false))
         recs.
Proof.
  intros H. apply main_records in H as (account_id & spot_requests & _ & Hall).
  eapply Forall2_Forall_r; [exact Hall |].
  apply Forall_forall. intros req _ rec (_ & l & l' & Hrec). unfold enrich_one in Hrec.
  pose proof (enrich_uptime_class_bounds _ _ _ _ _ _ _ _ _ Hrec)
    as (Hvery & _ & Hlong).
  pose proof (enrich_short_lived_bound _ _ _ _ _ _ _ _ _ Hrec) as (Htrue & Hfalse).
  apply enrich_Ok_inv in Hrec
    as (zones & response & _ & _ & _ & _ & _ & _ & _ & _ & Hclass & _).
  split; [| split].
  - rewrite Hclass. apply uptime_class_range.
  - intros Hv. apply Htrue, ltb_30_60, Hvery, Hv.
  - intros Hl. apply Hfalse, leb_120_60, Hlong, Hl.
Qed.

Lemma class_and_flag_agree_witness :
  Forall (fun rec =>
            UptimeClass rec ∈ ["VeryShort"; "Short"; "Long"]
            /\ (UptimeClass rec = "VeryShort" -> IsShortLived rec = true)
            /\ (UptimeClass rec = "Long" -> IsShortLived rec = false))
         (records (main Sample.world [])).
Proof.
  apply (class_and_flag_agree Sample.world _ (snd (main Sample.world []))).
  vm_compute. reflexivity.
Defined.

(** ** The sign of the dispersion *)

Lemma sqrt_nonneg x : nonneg x = true -> nonneg (PyFloat.sqrt x) = true.
Proof.
  destruct x as [s | s | | s m e]; intros Hx; try exact Hx;
    destruct s; try discriminate Hx; try reflexivity.
  apply FloatFacts.signed_false_nonneg. unfold PyFloat.sqrt, SFsqrt.
  destruct (SFsqrt_core_binary _ _ _ _) as [[q e'] l].
  apply FloatFacts.binary_round_aux_signed.
Qed.

Lemma ltb_zero_nonneg x : nonneg x = true -> PyFloat.ltb x PyFloat.zero = false.
Proof.
  destruct x as [s | s | | s m e]; simpl; intros Hx; try reflexivity;
    destruct s; try discriminate Hx; reflexivity.
Qed.

Lemma price_variance_nonneg prices launch v :
  price_variance prices launch = Ok v -> nonneg v = true.
Proof.
  intros H. apply price_variance_Ok in H. subst v.
  destruct prices as [| p ps]; [reflexivity |].
  apply round_ndigits_nonneg, sqrt_nonneg, mean_squared_deviations_nonneg.
Qed.

(** X19. In every record of a run the dispersion is not below 0.0. *)
Theorem dispersion_not_negative w recs log :
  main w [] = (Ok recs, log) ->
  Forall (fun rec => PyFloat.ltb (PriceVariance rec) PyFloat.zero = false) recs.
Proof.
  intros H. apply main_records in H as (account_id & spot_requests & _ & Hall).
  eapply Forall2_Forall_r; [exact Hall |].
  apply Forall_forall. intros req _ rec (_ & l & l' & Hrec). unfold enrich_one in Hrec.
  apply enrich_Ok_inv in Hrec as (zones & response & _ & _ & Hv & _).
  apply ltb_zero_nonneg. eapply price_variance_nonneg. exact Hv.
Qed.

Lemma dispersion_not_negative_witness :
  Forall (fun rec => PyFloat.ltb (PriceVariance rec) PyFloat.zero = false)
         (records (main Sample.priced_world [])).
Proof.
  apply (dispersion_not_negative Sample.priced_world _
           (snd (main Sample.priced_world []))).
  vm_compute. reflexivity.
Defined.

(** ** Few samples *)

Lemma sub_self x : PyFloat.is_finite x = true -> PyFloat.sub x x = PyFloat.zero.
Proof.
  destruct x as [s | s | | s m e]; simpl; intros Hx; try discriminate Hx.
  - destruct s; reflexivity.
  - unfold PyFloat.sub, SFsub. rewrite Z.sub_diag. reflexivity.
Qed.

Lemma price_variance_single p :
  PyFloat.is_finite p = true -> price_variance [p] p = Ok PyFloat.zero.
Proof.
  intros Hp. unfold price_variance, sum_squares. rewrite (sub_self p Hp).
  reflexivity.
Qed.

Lemma enrich_flat_on_few_samples w account req all rds ads log rec log' :
  enrich_termination_data w account req all rds ads log = (Ok rec, log') ->
  flat_on_few_samples w req rec.
Proof.
  intros H. apply enrich_Ok_inv in H
    as (zones & response & _ & Hr & Hv & Hlaunch & Hterm & Htrend & _).
  intros response' Hr' Hlen Hfin. unfold price_response in Hr'.
  rewrite Hr in Hr'. injection Hr' as <-.
  assert (Hsame : SpotPriceAtTermination rec = SpotPriceAtLaunch rec).
  { rewrite Hterm, Hlaunch. destruct response as [| s [| s' rest]];
      [reflexivity | reflexivity | simpl in Hlen; lia]. }
  split; [exact Hsame |]. split.
  - rewrite Htrend, Hsame. unfold price_trend. rewrite (sub_self _ Hfin). reflexivity.
  - destruct response as [| s [| s' rest]]; [| | simpl in Hlen; lia].
    + simpl in Hv. congruence.
    + assert (Hp : ps_SpotPrice s = SpotPriceAtLaunch rec)
        by (rewrite Hlaunch; reflexivity).
      change (map ps_SpotPrice (sorted ps_Timestamp [s]))
        with [ps_SpotPrice s] in Hv.
      rewrite Hp, (price_variance_single _ Hfin) in Hv. congruence.
Qed.

(** X20. With no price sample or a single one, and a finite launch price,
    a record has equal launch and termination prices, a trend of 0.0 and a
    dispersion of 0.0. *)
Theorem few_samples_are_flat w recs log :
  main w [] = (Ok recs, log) ->
  exists spot_requests,
    ec2_describe_spot_instance_requests w = Ok spot_requests
    /\ Forall2 (flat_on_few_samples w)
         (recent_terminated spot_requests (cutoff_time w)) recs.
Proof.
  apply (main_records_all flat_on_few_samples). intros.
  eapply enrich_flat_on_few_samples. eassumption.
Qed.

Lemma few_samples_are_flat_witness :
  exists spot_requests,
    ec2_describe_spot_instance_requests Sample.world = Ok spot_requests
    /\ Forall2 (flat_on_few_samples Sample.world)
         (recent_terminated spot_requests (cutoff_time Sample.world))
         (records (main Sample.world [])).
Proof.
  apply (few_samples_are_flat Sample.world _ (snd (main Sample.world []))).
  vm_compute. reflexivity.
Defined.

(** The scenario of an empty price history and a requested price of 0.045. *)
Example empty_history_record :
  map (fun rec => (PyFloat.repr (SpotPriceAtLaunch rec),
                   PyFloat.repr (SpotPriceAtTermination rec),
                   PyFloat.repr (SpotPriceTrend rec),
                   PyFloat.repr (PriceVariance rec)))
      (records (main Sample.world []))
  = [("0.045", "0.045", "0.0", "0.0"); ("0.045", "0.045", "0.0", "0.0")].
Proof. vm_compute. reflexivity. Qed.

(** ** Popularity and creation time *)

Lemma length_filter_impl {A} (P Q : A -> Prop)
    `{forall x, Decision (P x)} `{forall x, Decision (Q x)} (l : list A) :
  (forall x, P x -> Q x) -> length (filter P l) <= length (filter Q l).
Proof.
  intros HPQ. induction l as [| x l IH]; [reflexivity |].
  rewrite !filter_cons. destruct (decide (P x)) as [HP | HP].
  - rewrite decide_True by (apply HPQ; exact HP). simpl. lia.
  - destruct (decide (Q x)); simpl; lia.
Qed.

Lemma count_same_type_antitone all instance_type create1 create2 :
  (create1 <= create2)%Z ->
  count_same_type all instance_type create2
  <= count_same_type all instance_type create1.
Proof.
  intros Hle. unfold count_same_type. rewrite !sum_ones_length.
  apply length_filter_impl. intros req [Ht Hc]. split; [exact Ht | lia].
Qed.

Lemma count_same_type_le all instance_type create :
  count_same_type all instance_type create <= length all.
Proof. unfold count_same_type. rewrite sum_ones_length. apply length_filter. Qed.

(** X21. Of two records of one run with the same instance type, the one
    created earlier never has the smaller popularity; and no popularity
    exceeds the number of requests in the listing. *)
Theorem earlier_is_at_least_as_popular w recs log :
  main w [] = (Ok recs, log) ->
  (forall rec1 rec2,
     rec1 ∈ recs -> rec2 ∈ recs ->
     InstanceType rec1 = InstanceType rec2 ->
     (CreateTime rec1 <= CreateTime rec2)%Z ->
     InstancePopularity rec2 <= InstancePopularity rec1)
  /\ exists spot_requests,
       ec2_describe_spot_instance_requests w = Ok spot_requests
       /\ Forall (fun rec => InstancePopularity rec <= length spot_requests) recs.
Proof.
  intros H. apply main_records in H as (account_id & spot_requests & Hs & Hall).
  assert (Hpop : Forall (fun rec =>
                    InstancePopularity rec
                    = count_same_type spot_requests (InstanceType rec)
                        (CreateTime rec)) recs).
  { eapply Forall2_Forall_r; [exact Hall |].
    apply Forall_forall. intros req _ rec (_ & l & l' & Hrec).
    unfold enrich_one in Hrec.
    pose proof (enrich_echoes _ _ _ _ _ _ _ _ _ Hrec)
      as (_ & _ & Ht & _ & _ & Hc & _).
    apply enrich_Ok_inv in Hrec
      as (zones & response & _ & _ & _ & _ & _ & _ & _ & _ & _ & Hp & _).
    rewrite Hp, Ht, Hc. reflexivity. }
  rewrite Forall_forall in Hpop. split.
  - intros rec1 rec2 H1 H2 Htype Hle.
    rewrite (Hpop rec1 H1), (Hpop rec2 H2), Htype.
    apply count_same_type_antitone. exact Hle.
  - exists spot_requests. split; [exact Hs |].
    apply Forall_forall. intros rec Hin. rewrite (Hpop rec Hin).
    apply count_same_type_le.
Qed.

Lemma earlier_is_at_least_as_popular_witness :
  (forall rec1 rec2,
     rec1 ∈ records (main Sample.world []) ->
     rec2 ∈ records (main Sample.world []) ->
     InstanceType rec1 = InstanceType rec2 ->
     (CreateTime rec1 <= CreateTime rec2)%Z ->
     InstancePopularity rec2 <= InstancePopularity rec1)
  /\ exists spot_requests,
       ec2_describe_spot_instance_requests Sample.world = Ok spot_requests
       /\ Forall (fun rec => InstancePopularity rec <= length spot_requests)
            (records (main Sample.world [])).
Proof.
  apply (earlier_is_at_least_as_popular Sample.world _
           (snd (main Sample.world []))).
  vm_compute. reflexivity.
Defined.

(** ** The narrative of a record *)

(** X22. In every record of a run the narrative is present and is the
    narrative of that very record: the figures it quotes are the final
    values of the record's own fields. *)
Theorem description_is_of_the_record w recs log :
  main w [] = (Ok recs, log) ->
  Forall (fun rec => Description rec = Some (generate_description rec)) recs.
Proof.
  intros H. apply main_records in H as (account_id & spot_requests & _ & Hall).
  eapply Forall2_Forall_r; [exact Hall |].
  apply Forall_forall. intros req _ rec (_ & l & l' & Hrec). unfold enrich_one in Hrec.
  apply enrich_Ok_inv in Hrec
    as (zones & response & _ & _ & _ & _ & _ & _ & _ & _ & _ & _ & _ & _ & _
        & [d ->] & _).
  reflexivity.
Qed.

Lemma description_is_of_the_record_witness :
  Forall (fun rec => Description rec = Some (generate_description rec))
         (records (main Sample.world [])).
Proof.
  apply (description_is_of_the_record Sample.world _ (snd (main Sample.world []))).
  vm_compute. reflexivity.
Defined.

(** ** The lookup fields of a record *)

Lemma network_card_needs_performance w instance_type log network log' :
  get_network_performance w instance_type log = (Ok network, log') ->
  fst network = None -> snd network = None.
Proof.
  unfold get_network_performance, try_except, bind, call, lift, ret.
  destruct (ec2_describe_instance_types w instance_type) as [[| first rest] | e];
    simpl; try (intros H; injection H as <- _; reflexivity).
  destruct (it_NetworkInfo first) as [info |]; simpl;
    try (intros H; injection H as <- _; reflexivity).
  destruct (ni_NetworkPerformance info) as [perf |]; simpl;
    intros H; injection H as <- _; [discriminate | reflexivity].
Qed.

Lemma pool_utilization_range w instance_type az log pool log' :
  get_pool_utilization_class w instance_type az log = (Ok pool, log') ->
  pool ∈ ["available"; "unavailable"; "unknown"].
Proof.
  unfold get_pool_utilization_class, try_except, bind, call, ret.
  destruct (ec2_describe_instance_type_offerings w instance_type az)
    as [[| offering offerings] | e]; simpl; intros H; injection H as <- _.
  - right; left.
  - left.
  - right; right; left.
Qed.

(** X23. In every record of a run the pool class is one of "available",
    "unavailable" and "unknown", and a network card index is present only
    together with a network performance. *)
Theorem lookup_fields_well_formed w recs log :
  main w [] = (Ok recs, log) ->
  Forall (fun rec =>
            PoolUtilizationClass rec ∈ ["available"; "unavailable"; "unknown"]
            /\ (NetworkPerformance rec = None -> NetworkCardIndex rec = None))
         recs.
Proof.
  intros H. apply main_records in H as (account_id & spot_requests & _ & Hall).
  eapply Forall2_Forall_r; [exact Hall |].
  apply Forall_forall. intros req _ rec (_ & l & l' & Hrec). unfold enrich_one in Hrec.
  apply enrich_Ok_fields in Hrec
    as (zones & network & credit & pool & l3 & l4 & l5 & _ & Hn & _ & Hp & _ & _
        & _ & _ & _ & _ & -> & -> & _ & ->).
  split.
  - eapply pool_utilization_range. exact Hp.
  - eapply network_card_needs_performance. exact Hn.
Qed.

Lemma lookup_fields_well_formed_witness :
  Forall (fun rec =>
            PoolUtilizationClass rec ∈ ["available"; "unavailable"; "unknown"]
            /\ (NetworkPerformance rec = None -> NetworkCardIndex rec = None))
         (records (main Sample.world [])).
Proof.
  apply (lookup_fields_well_formed Sample.world _ (snd (main Sample.world []))).
  vm_compute. reflexivity.
Defined.

(** ** What the narrative prints for a missing value *)

Lemma append_assoc_string (s t u : string) : (s +:+ t) +:+ u = s +:+ (t +:+ u).
Proof.
  induction s as [| a s IH]; [rewrite !append_empty; reflexivity |].
  rewrite !append_cons, IH. reflexivity.
Qed.

(** C9 (as amended). The narrative is a function of the record alone and is
    defined on every record; no placeholder is substituted for a missing
    value.  It opens with the sentences naming the instance, its type, its
    zone, its network performance and its CPU credits, and names the zone
    once more with the zone count: there a missing instance id, zone or
    network performance reads None, the text Python prints for a null.  The
    zone id, the network card index and the VPC and subnet ids are not
    printed: the narrative is the same whatever they hold. *)
Theorem narrative_prints_None_for_missing (d : Enriched) :
  String.prefix
    ("Instance " +:+ default "None" (InstanceId d)
     +:+ " (type " +:+ InstanceType d
     +:+ ") was terminated because there was no available spot capacity in zone "
     +:+ default "None" (AvailabilityZone d)
     +:+ ". It had network performance of '"
     +:+ default "None" (NetworkPerformance d)
     +:+ "' and used '" +:+ CpuCreditsType d +:+ "' CPU credits. ")
    (generate_description d) = true
  /\ occurs_in
       (" in AZ " +:+ default "None" (AvailabilityZone d)
        +:+ ", showing capacity pressure. ")
       (generate_description d)
  /\ forall az_id card vpc subnet,
       generate_description
         (with_optionals d (InstanceId d) (AvailabilityZone d) az_id
            (NetworkPerformance d) card vpc subnet)
       = generate_description d.
Proof.
  split; [| split].
  - apply prefix_occurs. eexists. unfold generate_description, str_opt.
    rewrite !append_assoc_string. reflexivity.
  - exists ("Instance " +:+ default "None" (InstanceId d)
            +:+ " (type " +:+ InstanceType d
            +:+ ") was terminated because there was no available spot capacity in zone "
            +:+ default "None" (AvailabilityZone d)
            +:+ ". It had network performance of '"
            +:+ default "None" (NetworkPerformance d)
            +:+ "' and used '" +:+ CpuCreditsType d
            +:+ "' CPU credits. The spot price remained stable at "
            +:+ PyFloat.repr (SpotPriceAtLaunch d)
            +:+ " USD. The instance lived for "
            +:+ PyFloat.repr (UptimeMinutes d)
            +:+ " minutes ('" +:+ UptimeClass d
            +:+ "' uptime). You launched " +:+ pretty (InstancePopularity d)
            +:+ " similar spot instances in the past hour, indicating high demand in your account. In the past "
            +:+ pretty LOOKBACK_MINUTES
            +:+ " minutes, your account had " +:+ pretty (RegionDemandScore d)
            +:+ " spot terminations in region " +:+ Region d
            +:+ ", with " +:+ pretty (AZInterruptionRate d)).
    eexists. unfold generate_description, str_opt.
    rewrite !append_assoc_string. reflexivity.
  - intros az_id card vpc subnet. reflexivity.
Qed.

(** In [MoreSamples.refused_types_world] the request carries no instance id
    and the instance-type lookups are refused: the record has no instance id
    and no network performance, and its narrative prints None for both; the
    unknown it prints is the CPU-credit class that the record holds.  With
    every optional field of the records of [Sample.world] emptied, the
    narratives contain None and nowhere unknown. *)
Lemma missing_values_print_None_counterexample :
  map (fun rec => (InstanceId rec, NetworkPerformance rec, CpuCreditsType rec,
                   Description rec))
      (records (main MoreSamples.refused_types_world []))
  = [(None, None, "unknown",
      Some
        ("Instance None (type m5.large) was terminated because there was no available spot capacity in zone ap-south-1a. "
         +:+ "It had network performance of 'None' and used 'unknown' CPU credits. "
         +:+ "The spot price remained stable at 0.045 USD. "
         +:+ "The instance lived for 90.0 minutes ('Short' uptime). "
         +:+ "You launched 1 similar spot instances in the past hour, indicating high demand in your account. "
         +:+ "In the past 180 minutes, your account had 1 spot terminations in region ap-south-1, with 1 in AZ ap-south-1a, showing capacity pressure. "
         +:+ "This was a 'one-time' spot request, meaning AWS did not retry after termination."))]
  /\ map (fun rec =>
            let text :=
              generate_description
                (with_optionals rec None None None None None None None) in
            (contains "None" text, contains "unknown" text))
         (records (main Sample.world []))
     = [(true, false); (true, false)].
Proof. split; vm_compute; reflexivity. Qed.
